(** * The adaptive clustering pipeline of [backend/audio_clustering.py]

    A shallow embedding of [extract_feature_vector], [perform_clustering] and
    [main], and the properties of the pipeline that its specification
    states.

    Modelling choices.
    - A Python float is an IEEE binary64 number: Rocq's primitive [float].
      A number of a features dictionary is a float or an integer of any
      size, as [json.load] gives it; [np.array(..., dtype=float)] turns an
      integer into the nearest double and raises [OverflowError] when there
      is none.
    - A features dictionary is a finite map from key strings to values; a
      value is a number or a list of numbers (what the feature extractor
      writes, and the wrong-typed variants of it: a number where a list is
      expected, a list where a number is expected).
    - A record of the batch has its features dictionary and may lack its
      ['id']: the two warnings of the loop read it, the second one inside the
      exception handler.
    - [StandardScaler], [hdbscan.HDBSCAN] and [umap.UMAP] are library code, not
      part of the program: they are parameters of the pipeline
      ([Collaborators]), each either returning a value or raising. So is the
      order in which numpy adds up a column for [np.mean].
    - What the program prints as a warning, and every call it makes to a
      collaborator, is recorded in order in a log, so that "skipped with a
      warning" and "before the embedding step" are statements about the log.
      The [DEBUG] lines written to stderr are not recorded.
    - [main] starts from what argparse makes of the command line: the parsed
      arguments, the help, or a usage error. *)

From Stdlib Require Import ZArith List String Floats Lia.
From stdpp Require Import gmap strings list sorting.

Set Warnings "-inexact-float".
Local Open Scope string_scope.
Local Open Scope list_scope.

(** ** Python values and exceptions *)

Inductive collaborator : Type := Scaler | Clusterer | Reducer.

(** The exceptions the modelled paths raise. An exception raised inside a
    collaborator keeps the name of the collaborator it comes from. *)
Inductive exn : Type :=
| KeyError (key : string)
| TypeError (msg : string)
| ValueError (msg : string)
| IndexError (msg : string)
| OverflowError (msg : string)
| CollaboratorError (who : collaborator) (msg : string).

Abbreviation Ok := inr (only parsing).
Abbreviation Raise := inl (only parsing).

Definition bind {A B : Type} (m : exn + A) (k : A -> exn + B) : exn + B :=
  match m with
  | inl e => inl e
  | inr a => k a
  end.

Notation "'let*' x ':=' m 'in' k" := (bind m (fun x => k))
  (at level 10, x name, m at level 100, k at level 200).

(** A number as [json.load] gives it: a float, or an integer of any size. *)
Inductive pynum : Type :=
| PyFloat (x : float)
| PyInt (z : Z).

(** A value of a features dictionary. *)
Inductive pyval : Type :=
| PyNum (n : pynum)
| PyList (xs : list pynum).

(** What [np.array(feature_vector, dtype=float)] can return here: a 1-D array
    when every element is a number, a 2-D array when every element is a list
    and all have one length. *)
Inductive ndarray : Type :=
| Arr1 (xs : list float)
| Arr2 (rows : list (list float)).

Definition matrix : Type := list (list float).

(** One record of the batch: [feature_data['features']], and
    [feature_data['id']] when the record has the key. *)
Record snippet : Type := {
  snippet_id : option string;
  features : gmap string pyval
}.

(** ** Dictionary and list primitives *)

(** [key in d] *)
Definition contains (d : gmap string pyval) (key : string) : bool :=
  match d !! key with
  | Some _ => true
  | None => false
  end.

(** [d[key]] *)
Definition subscript (d : gmap string pyval) (key : string) : exn + pyval :=
  match d !! key with
  | Some v => Ok v
  | None => Raise (KeyError key)
  end.

(** [feature_vector.extend(v)]: a list is iterated, a number is not iterable. *)
Definition list_extend (feature_vector : list pyval) (v : pyval) : exn + list pyval :=
  match v with
  | PyList xs => Ok (feature_vector ++ map PyNum xs)
  | PyNum (PyFloat _) => Raise (TypeError "'float' object is not iterable")
  | PyNum (PyInt _) => Raise (TypeError "'int' object is not iterable")
  end.

(** [for feature in names: if feature in d: feature_vector.append(d[feature])] *)
Definition append_present (d : gmap string pyval) (feature_vector : list pyval)
    (names : list string) : list pyval :=
  fold_left
    (fun fv feature =>
       match d !! feature with
       | Some v => fv ++ [v]
       | None => fv
       end)
    names feature_vector.

Fixpoint as_scalars (l : list pyval) : option (list pynum) :=
  match l with
  | [] => Some []
  | PyNum n :: l' => option_map (cons n) (as_scalars l')
  | PyList _ :: _ => None
  end.

Fixpoint as_rows (l : list pyval) : option (list (list pynum)) :=
  match l with
  | [] => Some []
  | PyList xs :: l' => option_map (cons xs) (as_rows l')
  | PyNum _ :: _ => None
  end.

Definition inhomogeneous : exn :=
  ValueError "setting an array element with a sequence".

(** [float(z)] for an integer: the nearest double, ties to even; no double
    when that would be beyond the largest one. *)
Definition float_of_int (z : Z) : option float :=
  match binary_normalize prec emax z 0 false with
  | S754_infinity _ => None
  | sf => Some (SF2Prim sf)
  end.

(** One element stored into an array of dtype float. *)
Definition to_double (n : pynum) : exn + float :=
  match n with
  | PyFloat x => Ok x
  | PyInt z =>
      match float_of_int z with
      | Some x => Ok x
      | None => Raise (OverflowError "int too large to convert to float")
      end
  end.

Fixpoint to_doubles (l : list pynum) : exn + list float :=
  match l with
  | [] => Ok []
  | n :: l' =>
      let* x := to_double n in
      let* xs := to_doubles l' in
      Ok (x :: xs)
  end.

Fixpoint to_double_rows (rows : list (list pynum)) : exn + list (list float) :=
  match rows with
  | [] => Ok []
  | r :: rows' =>
      let* xs := to_doubles r in
      let* M := to_double_rows rows' in
      Ok (xs :: M)
  end.

(** [np.array(feature_vector, dtype=float)]: the shape is found first, then
    the elements are stored. *)
Definition np_array_float (feature_vector : list pyval) : exn + ndarray :=
  match as_scalars feature_vector with
  | Some ns =>
      let* xs := to_doubles ns in
      Ok (Arr1 xs)
  | None =>
      match as_rows feature_vector with
      | Some (r :: rows) =>
          if forallb (fun r' => Nat.eqb (length r') (length r)) rows
          then
            let* M := to_double_rows (r :: rows) in
            Ok (Arr2 M)
          else Raise inhomogeneous
      | _ => Raise inhomogeneous
      end
  end.

Definition array_elements (a : ndarray) : list float :=
  match a with
  | Arr1 xs => xs
  | Arr2 rows => concat rows
  end.

(** [np.any(np.isnan(a))] and [np.any(np.isinf(a))] *)
Definition np_any_isnan (a : ndarray) : bool :=
  existsb PrimFloat.is_nan (array_elements a).

Definition np_any_isinf (a : ndarray) : bool :=
  existsb PrimFloat.is_infinity (array_elements a).

(** ** [extract_feature_vector] *)

Definition spectral_features : list string :=
  ["spectral_centroid_mean"; "spectral_centroid_std";
   "spectral_bandwidth_mean"; "spectral_bandwidth_std";
   "spectral_rolloff_mean"; "spectral_rolloff_std"].

Definition rate_features : list string :=
  ["zero_crossing_rate_mean"; "zero_crossing_rate_std"].

Definition energy_features : list string := ["rms_mean"; "rms_std"].

Definition metadata_features : list string :=
  ["duration"; "sample_rate"; "audio_length"].

(** [if mean_key in d: fv.extend(d[mean_key]); fv.extend(d[std_key])] *)
Definition extend_pair (d : gmap string pyval) (feature_vector : list pyval)
    (mean_key std_key : string) : exn + list pyval :=
  if contains d mean_key then
    let* m := subscript d mean_key in
    let* fv := list_extend feature_vector m in
    let* s := subscript d std_key in
    list_extend fv s
  else Ok feature_vector.

(** The list [feature_vector] just before the final [np.array] call. *)
Definition assemble (features_dict : gmap string pyval) : exn + list pyval :=
  let feature_vector := [] in
  let* feature_vector := extend_pair features_dict feature_vector "mfcc_mean" "mfcc_std" in
  let feature_vector := append_present features_dict feature_vector spectral_features in
  let feature_vector := append_present features_dict feature_vector rate_features in
  let feature_vector := append_present features_dict feature_vector energy_features in
  let* feature_vector := extend_pair features_dict feature_vector "chroma_mean" "chroma_std" in
  let feature_vector := append_present features_dict feature_vector metadata_features in
  Ok feature_vector.

Definition extract_feature_vector (features_dict : gmap string pyval) : exn + ndarray :=
  let* feature_vector := assemble features_dict in
  np_array_float feature_vector.

(** ** Parameters of the two collaborators *)

Record hdbscan_params : Type := {
  min_cluster_size : Z;
  min_samples : Z;
  hdbscan_metric : string;
  cluster_selection_method : string;
  cluster_selection_epsilon : float;
  alpha : float
}.

Record umap_params : Type := {
  n_neighbors : Z;
  min_dist : float;
  n_components : Z;
  umap_metric : string;
  random_state : Z
}.

(** Lines 105-119: [min_cluster_size] and [min_samples], by [len(feature_vectors)]. *)
Definition size_parameters (n : Z) : Z * Z :=
  if (n <=? 10)%Z then (Z.max 2 (n / 3), 1%Z)
  else if (n <? 20)%Z then (3%Z, 2%Z)
  else (3%Z, 2%Z).

(** Lines 122-131: [cluster_selection_epsilon] and [alpha]. *)
Definition leniency_parameters (n : Z) : float * float :=
  if (n <=? 10)%Z then (0.3%float, 0.5%float)
  else (0.1%float, 1.0%float).

Definition hdbscan_parameters (n : Z) : hdbscan_params :=
  {| min_cluster_size := fst (size_parameters n);
     min_samples := snd (size_parameters n);
     hdbscan_metric := "euclidean";
     cluster_selection_method := "eom";
     cluster_selection_epsilon := fst (leniency_parameters n);
     alpha := snd (leniency_parameters n) |}.

(** Lines 162-176: [n_neighbors] and [min_dist] before the final clamp. *)
Definition umap_table (n : Z) : Z * float :=
  if (n <? 5)%Z then (Z.max 1 (n - 1), 0.5%float)
  else if (n <? 10)%Z then (Z.min 5 (n - 1), 0.3%float)
  else (15%Z, 0.1%float).

(** Lines 179-180: [min(n_neighbors, N - 1)], then [max(1, n_neighbors)]. *)
Definition clamp_neighbors (n_neighbors n : Z) : Z :=
  let n_neighbors := Z.min n_neighbors (n - 1) in
  Z.max 1 n_neighbors.

Definition umap_parameters (n : Z) : umap_params :=
  {| n_neighbors := clamp_neighbors (fst (umap_table n)) n;
     min_dist := snd (umap_table n);
     n_components := 2;
     umap_metric := "euclidean";
     random_state := 42 |}.

(** ** The log, and the monad of the pipeline *)

Inductive event : Type :=
| Warning_invalid (id : string)
    (* [WARNING] Invalid features for snippet {id}, skipping *)
| Warning_failed (id : string) (e : exn)
    (* [WARNING] Failed to extract features for snippet {id}: {e} *)
| Call_scaler (X : list ndarray)
| Call_hdbscan (p : hdbscan_params) (X : matrix)
| Call_umap (p : umap_params) (X : matrix).

(** A computation prints and calls (the log), then returns or raises. *)
Definition M (A : Type) : Type := list event * (exn + A).

Definition ret {A : Type} (a : A) : M A := ([], Ok a).

Definition raise {A : Type} (e : exn) : M A := ([], Raise e).

Definition lift {A : Type} (r : exn + A) : M A := ([], r).

Definition tell (ev : event) : M unit := ([ev], Ok tt).

Definition bindM {A B : Type} (m : M A) (k : A -> M B) : M B :=
  match m with
  | (log, inl e) => (log, inl e)
  | (log, inr a) => let '(log', r) := k a in (log ++ log', r)
  end.

(** [try: m  except Exception as e: handler e] *)
Definition catch {A : Type} (m : M A) (handler : exn -> M A) : M A :=
  match m with
  | (log, inl e) => let '(log', r) := handler e in (log ++ log', r)
  | (log, inr a) => (log, inr a)
  end.

Notation "'let!' x ':=' m 'in' k" := (bindM m (fun x => k))
  (at level 10, x name, m at level 100, k at level 200).
Notation "'let!' ' pat ':=' m 'in' k" :=
  (bindM m (fun x => match x with pat => k end))
  (at level 10, pat pattern, m at level 100, k at level 200).

(** The result of one collaborator call: what it returns, or the message of
    the exception it raises. *)
Definition answer (who : collaborator) {A : Type} (r : string + A) : exn + A :=
  match r with
  | inl msg => Raise (CollaboratorError who msg)
  | inr a => Ok a
  end.

Record Collaborators : Type := {
  (* scaler.fit_transform(X) *)
  StandardScaler_fit_transform : list ndarray -> string + matrix;
  (* clusterer.fit_predict(X_scaled), clusterer built from p *)
  HDBSCAN_fit_predict : hdbscan_params -> matrix -> string + list Z;
  (* reducer.fit_transform(X_scaled), reducer built from p *)
  UMAP_fit_transform : umap_params -> matrix -> string + matrix;
  (* np.add.reduce(rows, axis=0)[j]: the floating-point sum of column j of
     rows, the additions in the order numpy makes them *)
  np_add_reduce : matrix -> nat -> float
}.

Record results : Type := {
  cluster_labels : list Z;
  umap_embeddings : matrix;
  cluster_centers : list (list float);
  valid_indices : list nat;
  total_clusters : nat;
  noise_points : nat
}.

(** ** Array primitives used by [perform_clustering] *)

(** [a.shape] *)
Definition shape (a : ndarray) : list nat :=
  match a with
  | Arr1 xs => [length xs]
  | Arr2 rows => [length rows; length (hd [] rows)]
  end.

Definition same_shape (a b : ndarray) : bool :=
  bool_decide (shape a = shape b).

(** [np.array(feature_vectors)]: the arrays are stacked along a new first
    axis; arrays of different shapes cannot be stacked (numpy 1.24 and
    later raise [ValueError]). *)
Definition np_array_stack (feature_vectors : list ndarray) : exn + list ndarray :=
  match feature_vectors with
  | [] => Ok []
  | a :: rest =>
      if forallb (same_shape a) rest then Ok feature_vectors
      else Raise (ValueError "inhomogeneous shape")
  end.

(** [X[mask]] for a boolean mask along the first axis. *)
Definition boolean_index (X : matrix) (mask : list bool) : exn + matrix :=
  if Nat.eqb (length mask) (length X)
  then Ok (map fst (List.filter snd (combine X mask)))
  else Raise (IndexError "boolean index did not match indexed array along axis 0").

Definition float_of_nat (n : nat) : float :=
  PrimFloat.of_uint63 (Uint63.of_Z (Z.of_nat n)).

(** [np.mean(rows, axis=0)]: one component per column, the sum of the
    column (numpy's [add.reduce], whose order of additions is the library's)
    divided by the number of rows. The pipeline calls it on at least one
    row. *)
Definition np_mean_axis0 (C : Collaborators) (rows : matrix) : list float :=
  map (fun j => PrimFloat.div (np_add_reduce C rows j) (float_of_nat (length rows)))
      (seq 0 (length (hd [] rows))).

(** [set(cluster_labels)], then [-1] removed when it is there. *)
Definition unique_non_noise (cluster_labels : list Z) : gset Z :=
  let unique_labels : gset Z := list_to_set cluster_labels in
  if decide ((-1)%Z ∈ unique_labels) then unique_labels ∖ {[(-1)%Z]}
  else unique_labels.

(** [sorted(unique_labels)] *)
Definition sorted (unique_labels : gset Z) : list Z :=
  merge_sort Z.le (elements unique_labels).

(** Lines 152-157, the loop over [sorted(unique_labels)]. *)
Fixpoint centers_loop (C : Collaborators) (X_scaled : matrix) (cluster_labels : list Z)
    (labels : list Z) (cluster_centers : list (list float))
    : exn + list (list float) :=
  match labels with
  | [] => Ok cluster_centers
  | label :: labels' =>
      if negb (label =? -1)%Z then
        let cluster_mask := map (fun l => (l =? label)%Z) cluster_labels in
        let* rows := boolean_index X_scaled cluster_mask in
        let cluster_center := np_mean_axis0 C rows in
        centers_loop C X_scaled cluster_labels labels' (cluster_centers ++ [cluster_center])
      else centers_loop C X_scaled cluster_labels labels' cluster_centers
  end.

(** [int(np.sum(cluster_labels == -1))] *)
Definition count_noise (cluster_labels : list Z) : nat :=
  length (List.filter (fun l => (l =? -1)%Z) cluster_labels).

(** ** [perform_clustering] *)

(** [enumerate(features_data)] *)
Definition enumerate {A : Type} (l : list A) : list (nat * A) :=
  combine (seq 0 (length l)) l.

(** [feature_data['id']] *)
Definition subscript_id (feature_data : snippet) : exn + string :=
  match snippet_id feature_data with
  | Some id => Ok id
  | None => Raise (KeyError "id")
  end.

(** The body of the loop of lines 73-86, on the two lists it fills. Both
    warnings read [feature_data['id']]: the first inside the [try], the
    second inside the handler, where nothing catches what it raises. *)
Definition loop_body (acc : list ndarray * list nat) (item : nat * snippet)
    : M (list ndarray * list nat) :=
  let '(feature_vectors, valid_indices) := acc in
  let '(i, feature_data) := item in
  catch
    (let! feature_vector := lift (extract_feature_vector (features feature_data)) in
     if negb (np_any_isnan feature_vector) && negb (np_any_isinf feature_vector)
     then ret (feature_vectors ++ [feature_vector], valid_indices ++ [i])
     else
       let! id := lift (subscript_id feature_data) in
       let! _ := tell (Warning_invalid id) in
       ret (feature_vectors, valid_indices))
    (fun e =>
       let! id := lift (subscript_id feature_data) in
       let! _ := tell (Warning_failed id e) in
       ret (feature_vectors, valid_indices)).

Fixpoint for_each {A S : Type} (body : S -> A -> M S) (items : list A) (acc : S) : M S :=
  match items with
  | [] => ret acc
  | item :: items' =>
      let! acc' := body acc item in
      for_each body items' acc'
  end.

Definition validation_loop (features_data : list snippet) : M (list ndarray * list nat) :=
  for_each loop_body (enumerate features_data) ([], []).

Section Pipeline.

Variable C : Collaborators.

Definition call_scaler (X : list ndarray) : M matrix :=
  let! _ := tell (Call_scaler X) in
  lift (answer Scaler (StandardScaler_fit_transform C X)).

Definition call_hdbscan (p : hdbscan_params) (X_scaled : matrix) : M (list Z) :=
  let! _ := tell (Call_hdbscan p X_scaled) in
  lift (answer Clusterer (HDBSCAN_fit_predict C p X_scaled)).

Definition call_umap (p : umap_params) (X_scaled : matrix) : M matrix :=
  let! _ := tell (Call_umap p X_scaled) in
  lift (answer Reducer (UMAP_fit_transform C p X_scaled)).

(** Lines 88-206: what follows the validation loop. *)
Definition cluster_valid (feature_vectors : list ndarray) (valid_indices : list nat)
    : M results :=
  if Nat.eqb (length feature_vectors) 0
  then raise (ValueError "No valid feature vectors found")
  else
    let! X := lift (np_array_stack feature_vectors) in
    let! X_scaled := call_scaler X in
    let n := Z.of_nat (length feature_vectors) in
    let! cluster_labels := call_hdbscan (hdbscan_parameters n) X_scaled in
    let unique_labels := unique_non_noise cluster_labels in
    let! cluster_centers :=
      lift (centers_loop C X_scaled cluster_labels (sorted unique_labels) []) in
    let! umap_embeddings := call_umap (umap_parameters n) X_scaled in
    ret {| cluster_labels := cluster_labels;
           umap_embeddings := umap_embeddings;
           cluster_centers := cluster_centers;
           valid_indices := valid_indices;
           total_clusters := size unique_labels;
           noise_points := count_noise cluster_labels |}.

Definition perform_clustering (features_data : list snippet) : M results :=
  let! '(feature_vectors, valid_indices) := validation_loop features_data in
  cluster_valid feature_vectors valid_indices.

End Pipeline.

(** ** [main]

    [parser.parse_args()] is argparse's: what it makes of the command line is
    taken as given. Reading and writing files are parameters: what [open]
    and [json.load] give for a path (the batch, or the message of the
    exception raised), and whether [open] and [json.dump] succeed for a
    path. *)

(** The outcome of [parser.parse_args()], line 213, outside the [try]. *)
Inductive parsed : Type :=
| Parsed (features_file output : string)
    (* args.features_file and args.output, 'stdout' when --output is not given *)
| Help
    (* -h or --help: argparse prints the help and exits with status 0 *)
| Usage_error.
    (* --features-file missing, or an argument argparse does not know: it
       prints the usage and the error to stderr and exits with status 2 *)

Record Files : Type := {
  (* with open(path) as f: json.load(f) *)
  load_features : string -> string + list snippet;
  (* with open(path, 'w') as f: json.dump(results, f, indent=2) *)
  dump_results : string -> results -> option string
}.

(** What the [except Exception] of [main] can catch. *)
Inductive failure : Type :=
| Load_failed (msg : string)
| Pipeline_failed (e : exn)
| Write_failed (msg : string).

(** What a run of [main] leaves behind, in order. *)
Inductive output_line : Type :=
| Stdout_help
    (* the help text of argparse *)
| Stderr_usage
    (* the usage line and the error of argparse *)
| Pipeline (ev : event)
    (* a warning printed, or a call made, by perform_clustering *)
| Stderr_no_data
    (* [ERROR] No features data provided *)
| Stderr_failed (e : failure)
    (* [ERROR] Clustering failed: {e} *)
| Stdout_json (r : results)
    (* print(json.dumps(results)) *)
| File_json (path : string) (r : results)
    (* the results written to the file args.output *)
| Stdout_saved (path : string).
    (* [SUCCESS] Clustering results saved to: {path} *)

(** The lines and the exit status of the process. [sys.exit(1)] inside the
    [try] raises [SystemExit], which [except Exception] does not catch. *)
Definition main (C : Collaborators) (F : Files) (args : parsed)
    : list output_line * Z :=
  match args with
  | Help => ([Stdout_help], 0%Z)
  | Usage_error => ([Stderr_usage], 2%Z)
  | Parsed features_file output =>
      match load_features F features_file with
      | inl msg => ([Stderr_failed (Load_failed msg)], 1%Z)
      | inr features_data =>
          match features_data with
          | [] => ([Stderr_no_data], 1%Z)
          | _ :: _ =>
              let '(log, outcome) := perform_clustering C features_data in
              match outcome with
              | inl e => (map Pipeline log ++ [Stderr_failed (Pipeline_failed e)], 1%Z)
              | inr results =>
                  if String.eqb output "stdout"
                  then (map Pipeline log ++ [Stdout_json results], 0%Z)
                  else
                    match dump_results F output results with
                    | None =>
                        (map Pipeline log ++ [File_json output results; Stdout_saved output],
                         0%Z)
                    | Some msg =>
                        (map Pipeline log ++ [Stderr_failed (Write_failed msg)], 1%Z)
                    end
              end
          end
      end
  end.

(** The lines that go to standard output: the two warnings of the loop are
    printed without [file=sys.stderr]. *)
Definition on_stdout (line : output_line) : bool :=
  match line with
  | Pipeline (Warning_invalid _) | Pipeline (Warning_failed _ _) => true
  | Stdout_help | Stdout_json _ | Stdout_saved _ => true
  | _ => false
  end.

Definition stdout (lines : list output_line) : list output_line :=
  List.filter on_stdout lines.

(** ** The dictionary built by [extract_audio_features]
    ([audio_feature_extractor.py], lines 47-76)

    The numbers computed with librosa are taken as given; an integer
    ([sample_rate], [audio_length]) is taken after its conversion to a
    double. *)

Record audio_stats : Type := {
  mfcc_mean : list float;
  mfcc_std : list float;
  spectral_centroid_mean : float;
  spectral_centroid_std : float;
  spectral_bandwidth_mean : float;
  spectral_bandwidth_std : float;
  spectral_rolloff_mean : float;
  spectral_rolloff_std : float;
  zero_crossing_rate_mean : float;
  zero_crossing_rate_std : float;
  rms_mean : float;
  rms_std : float;
  chroma_mean : list float;
  chroma_std : list float;
  duration : float;
  sample_rate : float;
  audio_length : float
}.

Definition features_dictionary (st : audio_stats) : gmap string pyval :=
  list_to_map
    [("mfcc_mean", PyList (map PyFloat (mfcc_mean st)));
     ("mfcc_std", PyList (map PyFloat (mfcc_std st)));
     ("spectral_centroid_mean", PyNum (PyFloat (spectral_centroid_mean st)));
     ("spectral_centroid_std", PyNum (PyFloat (spectral_centroid_std st)));
     ("spectral_bandwidth_mean", PyNum (PyFloat (spectral_bandwidth_mean st)));
     ("spectral_bandwidth_std", PyNum (PyFloat (spectral_bandwidth_std st)));
     ("spectral_rolloff_mean", PyNum (PyFloat (spectral_rolloff_mean st)));
     ("spectral_rolloff_std", PyNum (PyFloat (spectral_rolloff_std st)));
     ("zero_crossing_rate_mean", PyNum (PyFloat (zero_crossing_rate_mean st)));
     ("zero_crossing_rate_std", PyNum (PyFloat (zero_crossing_rate_std st)));
     ("rms_mean", PyNum (PyFloat (rms_mean st)));
     ("rms_std", PyNum (PyFloat (rms_std st)));
     ("chroma_mean", PyList (map PyFloat (chroma_mean st)));
     ("chroma_std", PyList (map PyFloat (chroma_std st)));
     ("duration", PyNum (PyFloat (duration st)));
     ("sample_rate", PyNum (PyFloat (sample_rate st)));
     ("audio_length", PyNum (PyFloat (audio_length st)))].

(** [extract_audio_features]: the dictionary, or [None] when anything in the
    analysis raised. *)
Definition extract_audio_features (analysis : string + audio_stats)
    : option (gmap string pyval) :=
  match analysis with
  | inl _ => None
  | inr st => Some (features_dictionary st)
  end.

(** * Definitions used to state the properties *)

(** ** The tables of the specification *)

(** The two rows of the clustering table, as the specification writes them. *)
Definition small_dataset_row (n : Z) : hdbscan_params :=
  {| min_cluster_size := Z.max 2 (n / 3);
     min_samples := 1;
     hdbscan_metric := "euclidean";
     cluster_selection_method := "eom";
     cluster_selection_epsilon := 0.3%float;
     alpha := 0.5%float |}.

Definition medium_dataset_row : hdbscan_params :=
  {| min_cluster_size := 3;
     min_samples := 2;
     hdbscan_metric := "euclidean";
     cluster_selection_method := "eom";
     cluster_selection_epsilon := 0.1%float;
     alpha := 1.0%float |}.

(** The embedding table of the specification, before the clamp. *)
Definition neighbor_table (n : Z) : Z :=
  if (n <? 5)%Z then Z.max 1 (n - 1)
  else if (n <? 10)%Z then Z.min 5 (n - 1)
  else 15%Z.

(** [x] brought into the interval [[lo, hi]]. *)
Definition clamp_to (lo hi x : Z) : Z :=
  if (x <? lo)%Z then lo else if (hi <? x)%Z then hi else x.

(** ** Keys *)

Definition paired_group (mean_key std_key : string) : Prop :=
  (mean_key = "mfcc_mean" /\ std_key = "mfcc_std") \/
  (mean_key = "chroma_mean" /\ std_key = "chroma_std").

(** The keys that are appended one by one. *)
Definition scalar_features : list string :=
  spectral_features ++ rate_features ++ energy_features ++ metadata_features.

(** Every key [extract_feature_vector] can look at. *)
Definition recognized_keys : list string :=
  ["mfcc_mean"; "mfcc_std"] ++ scalar_features ++ ["chroma_mean"; "chroma_std"].

Definition no_recognized_group (s : snippet) : Prop :=
  Forall (fun k => features s !! k = None) recognized_keys.

(** ** The validation loop, snippet by snippet *)

(** What the loop body does with one snippet: the vector it keeps, or the
    warning it prints. *)
Definition kept (s : snippet) : option ndarray :=
  match extract_feature_vector (features s) with
  | inr v => if negb (np_any_isnan v) && negb (np_any_isinf v) then Some v else None
  | inl _ => None
  end.

Definition warned (s : snippet) : option event :=
  match snippet_id s, extract_feature_vector (features s) with
  | Some id, inr v =>
      if negb (np_any_isnan v) && negb (np_any_isinf v) then None
      else Some (Warning_invalid id)
  | Some id, inl e => Some (Warning_failed id e)
  | None, _ => None
  end.

(** A snippet the loop can deal with: its vector is kept, or it has an id to
    be reported by. *)
Definition reportable (s : snippet) : Prop :=
  kept s = None -> is_Some (snippet_id s).

(** The loop goes through the whole batch. *)
Definition loop_completes (l : list snippet) : Prop :=
  exists acc, snd (validation_loop l) = inr acc.

(** The positions, counted from [k], of the snippets that are kept. *)
Fixpoint kept_positions (k : nat) (l : list snippet) : list nat :=
  match l with
  | [] => []
  | s :: l' =>
      match kept s with
      | Some _ => k :: kept_positions (S k) l'
      | None => kept_positions (S k) l'
      end
  end.

(** The three things the validation loop leaves behind. *)
Definition loop_log (l : list snippet) : list event := fst (validation_loop l).

Definition loop_vectors (l : list snippet) : list ndarray :=
  match snd (validation_loop l) with
  | inr (feature_vectors, _) => feature_vectors
  | inl _ => []
  end.

Definition loop_indices (l : list snippet) : list nat :=
  match snd (validation_loop l) with
  | inr (_, valid_indices) => valid_indices
  | inl _ => []
  end.





(** ** The stages after the loop *)

(** The error of line 89. *)
Definition no_valid_data : exn := ValueError "No valid feature vectors found".

(** The rows of [X] whose label is [label]. *)
Fixpoint rows_with_label (X : matrix) (labels : list Z) (label : Z) : matrix :=
  match X, labels with
  | row :: X', l :: labels' =>
      if decide (l = label) then row :: rows_with_label X' labels' label
      else rows_with_label X' labels' label
  | _, _ => []
  end.


(** What the specification asks of the collaborators: the scaler keeps the
    number of rows, the clusterer returns one label per row, the reducer one
    point per row. *)
Record conforming (C : Collaborators) : Prop := {
  scaler_keeps_rows :
    forall X Xs, StandardScaler_fit_transform C X = inr Xs -> length Xs = length X;
  one_label_per_row :
    forall p X labels, HDBSCAN_fit_predict C p X = inr labels -> length labels = length X;
  one_point_per_row :
    forall p X E, UMAP_fit_transform C p X = inr E -> length E = length X
}.

(** An error that comes out of a library call: a collaborator's, or numpy's
    for a boolean index of the wrong length. *)
Definition raised_by_library (e : exn) : Prop :=
  (exists who msg, e = CollaboratorError who msg) \/ (exists msg, e = IndexError msg).

(** The log shows a call of the embedding. *)
Definition embedding_called (log : list event) : Prop :=
  exists p X, Call_umap p X ∈ log.

(** ** Example data *)

(** A column added up from the first row to the last. *)
Definition sum_in_order (rows : matrix) (j : nat) : float :=
  match map (fun row => nth j row 0%float) rows with
  | [] => 0%float
  | x :: xs => fold_left PrimFloat.add xs x
  end.

(** Collaborators that do as little as possible: the scaler hands the rows
    back, the clusterer puts every row in cluster 0, the reducer sends every
    row to the origin, a column is added up in order. *)
Definition plain_collaborators : Collaborators :=
  {| StandardScaler_fit_transform := fun X => inr (map array_elements X);
     HDBSCAN_fit_predict := fun _ X => inr (map (fun _ => 0%Z) X);
     UMAP_fit_transform := fun _ X => inr (map (fun _ => [0%float; 0%float]) X);
     np_add_reduce := sum_in_order |}.

(** Collaborators whose clusterer refuses a matrix of fewer than two rows. *)
Definition strict_collaborators : Collaborators :=
  {| StandardScaler_fit_transform := fun X => inr (map array_elements X);
     HDBSCAN_fit_predict :=
       fun _ X => if Nat.ltb (length X) 2 then inl "too few samples"
                  else inr (map (fun _ => 0%Z) X);
     UMAP_fit_transform := fun _ X => inr (map (fun _ => [0%float; 0%float]) X);
     np_add_reduce := sum_in_order |}.

(** Collaborators whose clusterer labels the rows 1, -1, 0, 1, -1, 0, ... *)
Definition cycling_collaborators : Collaborators :=
  {| StandardScaler_fit_transform := fun X => inr (map array_elements X);
     HDBSCAN_fit_predict :=
       fun _ X => inr (imap (fun i _ => nth (i mod 3) [1; -1; 0]%Z 0%Z) X);
     UMAP_fit_transform := fun _ X => inr (map (fun _ => [0%float; 0%float]) X);
     np_add_reduce := sum_in_order |}.

(** No recognized key at all. *)
Definition snippet_empty : snippet :=
  {| snippet_id := Some "a"; features := ∅ |}.

(** A mean sequence without its deviation sequence. *)
Definition snippet_no_std : snippet :=
  {| snippet_id := Some "b"; features := {[ "mfcc_mean" := PyList [PyFloat 1%float] ]} |}.

(** A not-a-number component. *)
Definition snippet_nan : snippet :=
  {| snippet_id := Some "c"; features := {[ "duration" := PyNum (PyFloat nan) ]} |}.


Definition snippet_nameless : snippet :=
  {| snippet_id := None; features := {[ "duration" := PyNum (PyFloat nan) ]} |}.


(** An integer a double holds, an integer that no double holds, and an
    integer where a list is expected. *)
Definition snippet_int : snippet :=
  {| snippet_id := Some "i";
     features := <[ "audio_length" := PyNum (PyInt 330750) ]>
                   {[ "sample_rate" := PyNum (PyInt 22050) ]} |}.

Definition snippet_huge : snippet :=
  {| snippet_id := Some "f"; features := {[ "audio_length" := PyNum (PyInt (10 ^ 400)) ]} |}.

Definition snippet_int_mean : snippet :=
  {| snippet_id := Some "g"; features := {[ "mfcc_mean" := PyNum (PyInt 3) ]} |}.

(** Two valid snippets, of vectors [[4, 2]] and [[8, 6]]. *)
Definition snippet_ok : snippet :=
  {| snippet_id := Some "d";
     features := <[ "duration" := PyNum (PyFloat 2%float) ]>
                   {[ "rms_mean" := PyNum (PyFloat 4%float) ]} |}.

Definition snippet_loud : snippet :=
  {| snippet_id := Some "e";
     features := <[ "duration" := PyNum (PyFloat 6%float) ]>
                   {[ "rms_mean" := PyNum (PyFloat 8%float) ]} |}.

Definition mixed_batch : list snippet :=
  [snippet_ok; snippet_no_std; snippet_loud; snippet_nan; snippet_ok; snippet_loud].

(** What [perform_clustering cycling_collaborators mixed_batch] logs and returns. *)
Definition mixed_log : list event :=
  [Warning_failed "b" (KeyError "mfcc_std"); Warning_invalid "c";
   Call_scaler [Arr1 [4%float; 2%float]; Arr1 [8%float; 6%float];
                Arr1 [4%float; 2%float]; Arr1 [8%float; 6%float]];
   Call_hdbscan (small_dataset_row 4)
     [[4%float; 2%float]; [8%float; 6%float]; [4%float; 2%float]; [8%float; 6%float]];
   Call_umap {| n_neighbors := 3; min_dist := 0.5%float; n_components := 2;
                umap_metric := "euclidean"; random_state := 42 |}
     [[4%float; 2%float]; [8%float; 6%float]; [4%float; 2%float]; [8%float; 6%float]]].

Definition mixed_result : results :=
  {| cluster_labels := [1; -1; 0; 1]%Z;
     umap_embeddings := [[0%float; 0%float]; [0%float; 0%float];
                         [0%float; 0%float]; [0%float; 0%float]];
     cluster_centers := [[4%float; 2%float]; [6%float; 4%float]];
     valid_indices := [0; 2; 4; 5];
     total_clusters := 2;
     noise_points := 1 |}.

(** * Definitions used to state further properties *)

(** ** The layout of a feature vector *)

(** A paired group as [extract_feature_vector] accepts it: the mean key is
    absent, or both keys hold lists. *)
Definition pair_ok (d : gmap string pyval) (mean_key std_key : string) : Prop :=
  d !! mean_key = None \/
  exists xs ys, d !! mean_key = Some (PyList xs) /\ d !! std_key = Some (PyList ys).

(** Every scalar key that is present holds a number. *)
Definition scalars_ok (d : gmap string pyval) : Prop :=
  Forall (fun k => forall v, d !! k = Some v -> exists n, v = PyNum n) scalar_features.

Definition well_typed (d : gmap string pyval) : Prop :=
  pair_ok d "mfcc_mean" "mfcc_std" /\ pair_ok d "chroma_mean" "chroma_std" /\ scalars_ok d.

(** The numbers a paired group contributes: mean sequence, then deviation
    sequence. *)
Definition pair_values (d : gmap string pyval) (mean_key std_key : string) : list pynum :=
  match d !! mean_key, d !! std_key with
  | Some (PyList xs), Some (PyList ys) => xs ++ ys
  | _, _ => []
  end.

(** The numbers the keys of [names] contribute, in the order of [names]. *)
Definition scalar_values (d : gmap string pyval) (names : list string) : list pynum :=
  flat_map (fun k => match d !! k with Some (PyNum n) => [n] | _ => [] end) names.

(** The documented order of a feature vector. *)
Definition layout (d : gmap string pyval) : list pynum :=
  pair_values d "mfcc_mean" "mfcc_std"
  ++ scalar_values d spectral_features
  ++ scalar_values d rate_features
  ++ scalar_values d energy_features
  ++ pair_values d "chroma_mean" "chroma_std"
  ++ scalar_values d metadata_features.

(** A number that a double can hold, and the double it becomes. *)
Definition fits (n : pynum) : Prop :=
  match n with
  | PyFloat _ => True
  | PyInt z => float_of_int z <> None
  end.

Definition as_double (n : pynum) : float :=
  match n with
  | PyFloat x => x
  | PyInt z => default 0%float (float_of_int z)
  end.

Definition int_too_large : exn := OverflowError "int too large to convert to float".

(** What [extend] says of a value that is not a list. *)
Definition not_iterable (n : pynum) : exn :=
  match n with
  | PyFloat _ => TypeError "'float' object is not iterable"
  | PyInt _ => TypeError "'int' object is not iterable"
  end.

(** The error the two lines of a paired group raise, if any. *)
Definition pair_error (d : gmap string pyval) (mean_key std_key : string) : option exn :=
  match d !! mean_key with
  | None => None
  | Some (PyNum n) => Some (not_iterable n)
  | Some (PyList _) =>
      match d !! std_key with
      | None => Some (KeyError std_key)
      | Some (PyNum n) => Some (not_iterable n)
      | Some (PyList _) => None
      end
  end.

(** ** The vector of an extracted dictionary *)

Definition stats_vector (st : audio_stats) : list float :=
  mfcc_mean st ++ mfcc_std st
  ++ [spectral_centroid_mean st; spectral_centroid_std st;
      spectral_bandwidth_mean st; spectral_bandwidth_std st;
      spectral_rolloff_mean st; spectral_rolloff_std st]
  ++ [zero_crossing_rate_mean st; zero_crossing_rate_std st]
  ++ [rms_mean st; rms_std st]
  ++ chroma_mean st ++ chroma_std st
  ++ [duration st; sample_rate st; audio_length st].

(** Example files: the batch is read from ["in.json"], an empty batch from
    ["empty.json"], nothing can be written. *)
Definition mixed_files : Files :=
  {| load_features :=
       fun path => if String.eqb path "in.json" then inr mixed_batch
                   else if String.eqb path "empty.json" then inr []
                   else inl "No such file or directory";
     dump_results := fun _ _ => Some "Permission denied" |}.

(** A dictionary is an extractor's, with 13 cepstral coefficients and 12
    chroma bins, as librosa is asked for. *)
Definition from_extractor (s : snippet) : Prop :=
  exists st, features s = features_dictionary st /\
             length (mfcc_mean st) = 13 /\ length (mfcc_std st) = 13 /\
             length (chroma_mean st) = 12 /\ length (chroma_std st) = 12.

Definition example_stats (level : float) : audio_stats :=
  {| mfcc_mean := replicate 13 level; mfcc_std := replicate 13 1%float;
     spectral_centroid_mean := 3%float; spectral_centroid_std := 4%float;
     spectral_bandwidth_mean := 5%float; spectral_bandwidth_std := 6%float;
     spectral_rolloff_mean := 7%float; spectral_rolloff_std := 8%float;
     zero_crossing_rate_mean := 9%float; zero_crossing_rate_std := 10%float;
     rms_mean := level; rms_std := 12%float;
     chroma_mean := replicate 12 level; chroma_std := replicate 12 1%float;
     duration := 15%float; sample_rate := 22050%float; audio_length := 330750%float |}.

Definition extracted_batch : list snippet :=
  [{| snippet_id := Some "s1"; features := features_dictionary (example_stats 2%float) |};
   {| snippet_id := Some "s2"; features := features_dictionary (example_stats nan) |};
   {| snippet_id := Some "s3"; features := features_dictionary (example_stats 5%float) |}].

(** * Properties *)

(** ** Parameter selection *)

Lemma size_parameters_small (n : Z) :
  (n <= 10)%Z -> size_parameters n = (Z.max 2 (n / 3), 1%Z).
Proof.
  intros Hn. unfold size_parameters.
  destruct (Z.leb_spec n 10) as [_ | Hgt]; [reflexivity | lia].
Qed.

Lemma size_parameters_large (n : Z) :
  (10 < n)%Z -> size_parameters n = (3%Z, 2%Z).
Proof.
  intros Hn. unfold size_parameters.
  destruct (Z.leb_spec n 10) as [Hle | _]; [lia |].
  destruct (n <? 20)%Z; reflexivity.
Qed.

Lemma leniency_parameters_small (n : Z) :
  (n <= 10)%Z -> leniency_parameters n = (0.3%float, 0.5%float).
Proof.
  intros Hn. unfold leniency_parameters.
  destruct (Z.leb_spec n 10) as [_ | Hgt]; [reflexivity | lia].
Qed.

Lemma leniency_parameters_large (n : Z) :
  (10 < n)%Z -> leniency_parameters n = (0.1%float, 1.0%float).
Proof.
  intros Hn. unfold leniency_parameters.
  destruct (Z.leb_spec n 10) as [Hle | _]; [lia | reflexivity].
Qed.

(** C1. For every valid-sample count [n] the clustering parameters are those
    of the adaptive table: the small-dataset row [max(2, n // 3), 1, 0.3, 0.5]
    when [n <= 10], the row [3, 2, 0.1, 1.0] when [n > 10]; the rows differ,
    and the change of row falls exactly between [n = 10] and [n = 11]. *)
Theorem clustering_parameters_table (n : Z) :
  ((n <= 10)%Z -> hdbscan_parameters n = small_dataset_row n) /\
  ((10 < n)%Z -> hdbscan_parameters n = medium_dataset_row) /\
  hdbscan_parameters 10 = small_dataset_row 10 /\
  hdbscan_parameters 11 = medium_dataset_row /\
  small_dataset_row 10 <> medium_dataset_row.
Proof.
  split; [| split; [| split; [| split]]].
  - intros Hn. unfold hdbscan_parameters, small_dataset_row.
    rewrite (size_parameters_small n Hn), (leniency_parameters_small n Hn).
    reflexivity.
  - intros Hn. unfold hdbscan_parameters, medium_dataset_row.
    rewrite (size_parameters_large n Hn), (leniency_parameters_large n Hn).
    reflexivity.
  - reflexivity.
  - reflexivity.
  - intros Heq. apply (f_equal min_samples) in Heq. discriminate Heq.
Qed.

Lemma clustering_parameters_table_witness :
  ((10 <= 10)%Z /\ hdbscan_parameters 10 = small_dataset_row 10) /\
  ((10 < 11)%Z /\ hdbscan_parameters 11 = medium_dataset_row).
Proof.
  split; split.
  - lia.
  - apply (proj1 (clustering_parameters_table 10)). lia.
  - lia.
  - apply (proj1 (proj2 (clustering_parameters_table 11))). lia.
Defined.

Lemma clamp_neighbors_spec (k n : Z) :
  (2 <= n)%Z -> clamp_neighbors k n = clamp_to 1 (n - 1) k.
Proof.
  intros Hn. unfold clamp_neighbors, clamp_to.
  destruct (Z.ltb_spec k 1), (Z.ltb_spec (n - 1) k); lia.
Qed.

Lemma umap_table_neighbors (n : Z) : fst (umap_table n) = neighbor_table n.
Proof.
  unfold umap_table, neighbor_table.
  destruct (n <? 5)%Z; [reflexivity |].
  destruct (n <? 10)%Z; reflexivity.
Qed.

(** C2. For every valid-sample count [n >= 2], the neighbor count handed to
    the embedding is the table value ([max(1, n-1)] below 5, [min(5, n-1)]
    below 10, 15 from 10 on) brought into [[1, n-1]] afterwards: it is at
    least 1 and strictly less than [n]. *)
Theorem neighbor_count_clamped (n : Z) :
  (2 <= n)%Z ->
  n_neighbors (umap_parameters n) = clamp_to 1 (n - 1) (neighbor_table n) /\
  (1 <= n_neighbors (umap_parameters n))%Z /\
  (n_neighbors (umap_parameters n) < n)%Z.
Proof.
  intros Hn. simpl.
  rewrite umap_table_neighbors, (clamp_neighbors_spec _ n Hn).
  split; [reflexivity |].
  unfold clamp_to.
  destruct (Z.ltb_spec (neighbor_table n) 1), (Z.ltb_spec (n - 1) (neighbor_table n)); lia.
Qed.

Lemma neighbor_count_clamped_witness :
  (2 <= 12)%Z /\
  n_neighbors (umap_parameters 12) = 11%Z /\
  (1 <= n_neighbors (umap_parameters 12))%Z /\
  (n_neighbors (umap_parameters 12) < 12)%Z.
Proof.
  split; [lia |].
  destruct (neighbor_count_clamped 12 ltac:(lia)) as (Heq & Hlo & Hhi).
  split; [exact Heq | split; [exact Hlo | exact Hhi]].
Defined.

(** ** The validation loop *)

Lemma loop_body_spec (fvs : list ndarray) (vis : list nat) (i : nat) (s : snippet) :
  loop_body (fvs, vis) (i, s)
  = match kept s, warned s with
    | Some v, _ => ([], Ok (fvs ++ [v], vis ++ [i]))
    | None, Some w => ([w], Ok (fvs, vis))
    | None, None => ([], inl (KeyError "id"))
    end.
Proof.
  unfold loop_body, kept, warned, subscript_id.
  destruct (extract_feature_vector (features s)) as [e | v].
  - destruct (snippet_id s); reflexivity.
  - unfold lift, bindM at 1.
    destruct (negb (np_any_isnan v) && negb (np_any_isinf v)), (snippet_id s); reflexivity.
Qed.

Lemma kept_warned (s : snippet) (v : ndarray) : kept s = Some v -> warned s = None.
Proof.
  unfold kept, warned.
  destruct (snippet_id s); [| reflexivity].
  destruct (extract_feature_vector (features s)) as [e | u]; [discriminate |].
  by destruct (negb (np_any_isnan u) && negb (np_any_isinf u)).
Qed.

Lemma warned_id (s : snippet) :
  kept s = None -> (warned s = None <-> snippet_id s = None).
Proof.
  unfold kept, warned.
  destruct (snippet_id s) as [id |]; [| done].
  destruct (extract_feature_vector (features s)) as [e | u]; [done |].
  by destruct (negb (np_any_isnan u) && negb (np_any_isinf u)).
Qed.

Lemma reportable_cases (s : snippet) :
  reportable s \/ (kept s = None /\ snippet_id s = None).
Proof.
  unfold reportable.
  destruct (kept s) as [v |]; [left; discriminate |].
  destruct (snippet_id s) as [id |]; [left; eauto | right; done].
Qed.

Lemma for_each_spec (k : nat) (l : list snippet) (fvs : list ndarray) (vis : list nat) :
  Forall reportable l ->
  for_each loop_body (combine (seq k (length l)) l) (fvs, vis)
  = (omap warned l, Ok (fvs ++ omap kept l, vis ++ kept_positions k l)).
Proof.
  intros Hl. revert k fvs vis.
  induction Hl as [| s l Hs _ IH]; intros k fvs vis.
  - simpl. unfold ret. by rewrite !app_nil_r.
  - cbn [length seq combine for_each omap list_omap kept_positions].
    rewrite loop_body_spec.
    destruct (kept s) as [v |] eqn:Ek.
    + rewrite (kept_warned s v Ek). cbn. rewrite IH. cbn. by rewrite <- !app_assoc.
    + destruct (warned s) as [w |] eqn:Ew.
      * cbn. rewrite IH. reflexivity.
      * apply (warned_id s Ek) in Ew. destruct (Hs Ek) as [id Hid]. congruence.
Qed.

Lemma for_each_abort (k : nat) (pre post : list snippet) (s : snippet)
    (fvs : list ndarray) (vis : list nat) :
  Forall reportable pre -> kept s = None -> snippet_id s = None ->
  for_each loop_body (combine (seq k (length (pre ++ s :: post))) (pre ++ s :: post)) (fvs, vis)
  = (omap warned pre, inl (KeyError "id")).
Proof.
  intros Hpre Hk Hid. revert k fvs vis.
  induction Hpre as [| s' pre Hs' _ IH]; intros k fvs vis.
  - cbn [app length seq combine for_each omap list_omap].
    rewrite loop_body_spec, Hk, (proj2 (warned_id s Hk) Hid). reflexivity.
  - cbn [app length seq combine for_each omap list_omap].
    rewrite loop_body_spec.
    destruct (kept s') as [v |] eqn:Ek.
    + rewrite (kept_warned s' v Ek). cbn. by rewrite IH.
    + destruct (warned s') as [w |] eqn:Ew.
      * cbn. by rewrite IH.
      * apply (warned_id s' Ek) in Ew. destruct (Hs' Ek) as [id Hid']. congruence.
Qed.

(** A batch is reportable throughout, or has a first snippet that is not. *)
Lemma batch_cases (l : list snippet) :
  Forall reportable l \/
  exists pre s post,
    l = pre ++ s :: post /\ Forall reportable pre /\ kept s = None /\ snippet_id s = None.
Proof.
  induction l as [| s l IH]; [left; constructor |].
  destruct (reportable_cases s) as [Hs | [Hk Hid]].
  - destruct IH as [Hl | (pre & s' & post & -> & Hpre & Hk & Hid)].
    + left. by constructor.
    + right. exists (s :: pre), s', post. repeat split; try done. by constructor.
  - right. exists [], s, l. repeat split; try done.
Qed.

Lemma validation_loop_spec (l : list snippet) :
  Forall reportable l ->
  validation_loop l = (omap warned l, Ok (omap kept l, kept_positions 0 l)).
Proof. intros Hl. unfold validation_loop, enumerate. by rewrite for_each_spec. Qed.

(** The loop stops at the first snippet that is skipped and has no id: the
    handler's own [feature_data['id']] raises. *)
Lemma validation_loop_abort (pre post : list snippet) (s : snippet) :
  Forall reportable pre -> kept s = None -> snippet_id s = None ->
  validation_loop (pre ++ s :: post) = (omap warned pre, inl (KeyError "id")).
Proof. intros Hpre Hk Hid. unfold validation_loop, enumerate. by apply for_each_abort. Qed.

Lemma loop_completes_reportable (l : list snippet) :
  loop_completes l <-> Forall reportable l.
Proof.
  unfold loop_completes. split.
  - intros [acc Hacc].
    destruct (batch_cases l) as [Hl | (pre & s & post & -> & Hpre & Hk & Hid)]; [exact Hl |].
    rewrite (validation_loop_abort pre post s Hpre Hk Hid) in Hacc. discriminate Hacc.
  - intros Hl. rewrite (validation_loop_spec l Hl). eauto.
Qed.

Lemma loop_completes_app (l1 l2 : list snippet) :
  loop_completes (l1 ++ l2) <-> loop_completes l1 /\ loop_completes l2.
Proof. rewrite !loop_completes_reportable. apply Forall_app. Qed.

Lemma loop_completes_cons (s : snippet) (l : list snippet) :
  loop_completes (s :: l) <-> reportable s /\ loop_completes l.
Proof. rewrite !loop_completes_reportable. apply Forall_cons. Qed.

(** What an aborted loop leaves behind. *)
Lemma validation_loop_error (l : list snippet) (e : exn) :
  snd (validation_loop l) = inl e ->
  e = KeyError "id" /\ loop_vectors l = [] /\ loop_indices l = [] /\
  exists pre s post, l = pre ++ s :: post /\ loop_log l = omap warned pre.
Proof.
  intros He.
  destruct (batch_cases l) as [Hl | (pre & s & post & -> & Hpre & Hk & Hid)].
  { rewrite (validation_loop_spec l Hl) in He. discriminate He. }
  unfold loop_vectors, loop_indices, loop_log.
  rewrite (validation_loop_abort pre post s Hpre Hk Hid) in *.
  simpl in *. injection He as <-. repeat split; eauto.
Qed.

Lemma kept_positions_app (k : nat) (l1 l2 : list snippet) :
  kept_positions k (l1 ++ l2)
  = kept_positions k l1 ++ kept_positions (k + length l1) l2.
Proof.
  revert k. induction l1 as [| s l1 IH]; intros k; simpl.
  - by rewrite Nat.add_0_r.
  - rewrite IH, <- Nat.add_succ_comm. by destruct (kept s).
Qed.

Lemma kept_positions_shift (k : nat) (l : list snippet) :
  kept_positions k l = map (Nat.add k) (kept_positions 0 l).
Proof.
  revert k. induction l as [| s l IH]; intros k; simpl; [done |].
  assert (Htl : kept_positions (S k) l = map (Nat.add k) (kept_positions 1 l)).
  { rewrite (IH (S k)), (IH 1), map_map. apply map_ext. intros x. lia. }
  destruct (kept s); simpl; rewrite ?Nat.add_0_r, Htl; reflexivity.
Qed.

Lemma kept_positions_length (k : nat) (l : list snippet) :
  length (kept_positions k l) = length (omap kept l).
Proof.
  revert k. induction l as [| s l IH]; intros k; simpl; [done |].
  destruct (kept s); simpl; by rewrite IH.
Qed.

Lemma kept_positions_bounds (k : nat) (l : list snippet) :
  Forall (fun i => k <= i < k + length l) (kept_positions k l).
Proof.
  revert k. induction l as [| s l IH]; intros k; simpl; [constructor |].
  assert (Htl : Forall (fun i => k <= i < k + S (length l)) (kept_positions (S k) l)).
  { eapply Forall_impl; [apply IH |]. simpl. intros i Hi. lia. }
  destruct (kept s); [constructor; [lia | exact Htl] | exact Htl].
Qed.

Lemma kept_positions_sorted (k : nat) (l : list snippet) :
  StronglySorted lt (kept_positions k l).
Proof.
  revert k. induction l as [| s l IH]; intros k; simpl; [constructor |].
  destruct (kept s); [| apply IH].
  constructor; [apply IH |].
  eapply Forall_impl; [apply kept_positions_bounds |]. simpl. intros i Hi. lia.
Qed.

Lemma kept_positions_sublist (k : nat) (l : list snippet) :
  sublist (kept_positions k l) (seq k (length l)).
Proof.
  revert k. induction l as [| s l IH]; intros k; simpl; [constructor |].
  destruct (kept s); [apply sublist_skip | apply sublist_cons]; apply IH.
Qed.

Lemma loop_log_spec (l : list snippet) : loop_completes l -> loop_log l = omap warned l.
Proof.
  intros Hl%loop_completes_reportable. unfold loop_log. by rewrite validation_loop_spec.
Qed.

Lemma loop_vectors_spec (l : list snippet) : loop_completes l -> loop_vectors l = omap kept l.
Proof.
  intros Hl%loop_completes_reportable. unfold loop_vectors. by rewrite validation_loop_spec.
Qed.

Lemma loop_indices_spec (l : list snippet) :
  loop_completes l -> loop_indices l = kept_positions 0 l.
Proof.
  intros Hl%loop_completes_reportable. unfold loop_indices. by rewrite validation_loop_spec.
Qed.

Lemma validation_loop_total (l : list snippet) :
  loop_completes l ->
  validation_loop l = (loop_log l, Ok (loop_vectors l, loop_indices l)).
Proof.
  intros Hl. rewrite loop_log_spec, loop_vectors_spec, loop_indices_spec by exact Hl.
  by apply validation_loop_spec, loop_completes_reportable.
Qed.

(** A batch of which a vector is kept went through the whole loop. *)
Lemma loop_vectors_completes (l : list snippet) :
  loop_vectors l <> [] -> loop_completes l.
Proof.
  intros Hne. unfold loop_completes.
  destruct (snd (validation_loop l)) as [e | acc] eqn:E; [| eauto].
  destruct Hne. by apply validation_loop_error in E as (_ & -> & _).
Qed.

Lemma loop_indices_length (l : list snippet) :
  length (loop_indices l) = length (loop_vectors l).
Proof.
  destruct (snd (validation_loop l)) as [e | acc] eqn:E.
  - apply validation_loop_error in E as (_ & -> & -> & _). reflexivity.
  - assert (Hl : loop_completes l) by (unfold loop_completes; eauto).
    rewrite loop_indices_spec, loop_vectors_spec by exact Hl. apply kept_positions_length.
Qed.

(** A snippet that is not kept leaves a warning and nothing else; the
    snippets before and after it are treated as if it were not there, their
    positions apart. *)
Lemma validation_loop_skip (pre post : list snippet) (s : snippet) (w : event) :
  loop_completes pre -> loop_completes post ->
  kept s = None -> warned s = Some w ->
  validation_loop (pre ++ s :: post)
  = (loop_log pre ++ w :: loop_log post,
     Ok (loop_vectors pre ++ loop_vectors post,
         loop_indices pre ++ map (Nat.add (S (length pre))) (loop_indices post))).
Proof.
  intros Hpre Hpost Hk Hw.
  assert (Hs : reportable s).
  { intros _. destruct (snippet_id s) eqn:Eid; [eauto |].
    apply (warned_id s Hk) in Eid. congruence. }
  rewrite validation_loop_spec
    by (apply loop_completes_reportable, loop_completes_app; split;
        [exact Hpre | by apply loop_completes_cons]).
  rewrite !loop_log_spec, !loop_vectors_spec, !loop_indices_spec by assumption.
  rewrite !omap_app, kept_positions_app. simpl. rewrite Hk, Hw. simpl.
  rewrite (kept_positions_shift (S (length pre)) post).
  reflexivity.
Qed.

(** A snippet that is kept enters both lists at its position. *)
Lemma validation_loop_keep (pre post : list snippet) (s : snippet) (v : ndarray) :
  loop_completes pre -> loop_completes post ->
  kept s = Some v ->
  validation_loop (pre ++ s :: post)
  = (loop_log pre ++ loop_log post,
     Ok (loop_vectors pre ++ v :: loop_vectors post,
         loop_indices pre
         ++ length pre :: map (Nat.add (S (length pre))) (loop_indices post))).
Proof.
  intros Hpre Hpost Hk.
  assert (Hs : reportable s) by (intros Hn; congruence).
  rewrite validation_loop_spec
    by (apply loop_completes_reportable, loop_completes_app; split;
        [exact Hpre | by apply loop_completes_cons]).
  rewrite !loop_log_spec, !loop_vectors_spec, !loop_indices_spec by assumption.
  rewrite !omap_app, kept_positions_app. simpl. rewrite Hk, (kept_warned s v Hk). simpl.
  rewrite (kept_positions_shift (S (length pre)) post).
  reflexivity.
Qed.

Lemma perform_clustering_unfold (C : Collaborators) (l : list snippet) :
  loop_completes l ->
  perform_clustering C l
  = (let '(log, r) := cluster_valid C (loop_vectors l) (loop_indices l) in
     (loop_log l ++ log, r)).
Proof.
  intros Hl. unfold perform_clustering. rewrite (validation_loop_total l Hl). reflexivity.
Qed.

(** What the loop raises, the pipeline raises. *)
Lemma perform_clustering_aborted (C : Collaborators) (l : list snippet) (e : exn) :
  snd (validation_loop l) = inl e ->
  perform_clustering C l = (loop_log l, inl e).
Proof.
  intros He. unfold perform_clustering, loop_log.
  destruct (validation_loop l) as [log r]. simpl in He. subst r. reflexivity.
Qed.

Lemma loop_outcome (l : list snippet) :
  loop_completes l \/ snd (validation_loop l) = inl (KeyError "id").
Proof.
  destruct (snd (validation_loop l)) as [e | acc] eqn:E.
  - right. by apply validation_loop_error in E as (-> & _).
  - left. unfold loop_completes. rewrite E. eauto.
Qed.












(** ** Paired feature groups *)

Lemma extend_pair_raises (d : gmap string pyval) (fv : list pyval) (mk sk : string) :
  is_Some (d !! mk) -> d !! sk = None ->
  exists e, extend_pair d fv mk sk = inl e.
Proof.
  intros [m Hm] Hs. unfold extend_pair, contains, subscript.
  rewrite Hm, Hs. simpl.
  destruct m as [[x | z] | xs]; simpl; eauto.
Qed.

Lemma extend_pair_ext (d1 d2 : gmap string pyval) (fv : list pyval) (mk sk : string) :
  d1 !! mk = d2 !! mk ->
  (is_Some (d1 !! mk) -> d1 !! sk = d2 !! sk) ->
  extend_pair d1 fv mk sk = extend_pair d2 fv mk sk.
Proof.
  intros Hm Hs. unfold extend_pair, contains, subscript.
  rewrite <- Hm. destruct (d1 !! mk) as [m |] eqn:E; [| reflexivity].
  rewrite <- Hs by eauto. reflexivity.
Qed.

Lemma append_present_ext (d1 d2 : gmap string pyval) (names : list string) :
  Forall (fun k => d1 !! k = d2 !! k) names ->
  forall fv, append_present d1 fv names = append_present d2 fv names.
Proof.
  unfold append_present.
  induction 1 as [| k names Hk _ IH]; intros fv; simpl; [reflexivity |].
  rewrite Hk. apply IH.
Qed.

Lemma assemble_ext (d1 d2 : gmap string pyval) :
  d1 !! "mfcc_mean" = d2 !! "mfcc_mean" ->
  (is_Some (d1 !! "mfcc_mean") -> d1 !! "mfcc_std" = d2 !! "mfcc_std") ->
  d1 !! "chroma_mean" = d2 !! "chroma_mean" ->
  (is_Some (d1 !! "chroma_mean") -> d1 !! "chroma_std" = d2 !! "chroma_std") ->
  Forall (fun k => d1 !! k = d2 !! k) scalar_features ->
  assemble d1 = assemble d2.
Proof.
  intros Hm Hms Hc Hcs Hall.
  unfold scalar_features in Hall.
  apply Forall_app in Hall as [Hsp Hall].
  apply Forall_app in Hall as [Hra Hall].
  apply Forall_app in Hall as [Hen Hme].
  unfold assemble.
  rewrite (extend_pair_ext d1 d2 [] _ _ Hm Hms).
  destruct (extend_pair d2 [] "mfcc_mean" "mfcc_std") as [e | fv]; [reflexivity |].
  cbn [bind].
  rewrite (append_present_ext d1 d2 _ Hsp), (append_present_ext d1 d2 _ Hra),
    (append_present_ext d1 d2 _ Hen).
  rewrite (extend_pair_ext d1 d2 _ _ _ Hc Hcs).
  destruct (extend_pair d2 _ "chroma_mean" "chroma_std") as [e | fv']; [reflexivity |].
  cbn [bind].
  by rewrite (append_present_ext d1 d2 _ Hme).
Qed.

Lemma assemble_missing_std (d : gmap string pyval) (mk sk : string) :
  paired_group mk sk -> is_Some (d !! mk) -> d !! sk = None ->
  exists e, assemble d = inl e.
Proof.
  intros [[-> ->] | [-> ->]] Hm Hs; unfold assemble.
  - destruct (extend_pair_raises d [] _ _ Hm Hs) as [e ->]. eauto.
  - destruct (extend_pair d [] "mfcc_mean" "mfcc_std") as [e | fv]; [eauto |].
    cbn [bind].
    match goal with
    | |- context [extend_pair d ?fv' "chroma_mean" "chroma_std"] =>
        destruct (extend_pair_raises d fv' _ _ Hm Hs) as [e ->]
    end.
    eauto.
Qed.

Lemma assemble_ignores_std (d : gmap string pyval) (mk sk : string) (v : pyval) :
  paired_group mk sk -> d !! mk = None ->
  assemble (<[sk := v]> d) = assemble (delete sk d).
Proof.
  intros [[-> ->] | [-> ->]] Hm; apply assemble_ext;
    rewrite ?lookup_insert_ne, ?lookup_delete_ne by done;
    try reflexivity;
    try (rewrite Hm; intros [? ?]; discriminate);
    try (intros _; rewrite ?lookup_insert_ne, ?lookup_delete_ne by done; reflexivity);
    repeat constructor;
    rewrite ?lookup_insert_ne, ?lookup_delete_ne by done; reflexivity.
Qed.

Lemma for_each_replace (k : nat) (pre post : list snippet) (s1 s2 : snippet)
    (acc : list ndarray * list nat) :
  kept s1 = kept s2 -> warned s1 = warned s2 ->
  for_each loop_body (combine (seq k (length (pre ++ s1 :: post))) (pre ++ s1 :: post)) acc
  = for_each loop_body (combine (seq k (length (pre ++ s2 :: post))) (pre ++ s2 :: post)) acc.
Proof.
  intros Hk Hw. revert k acc.
  induction pre as [| s' pre IH]; intros k [fvs vis];
    cbn [app length seq combine for_each].
  - by rewrite !loop_body_spec, Hk, Hw.
  - destruct (loop_body (fvs, vis) (k, s')) as [log [e | acc]]; simpl; [reflexivity |].
    by rewrite IH.
Qed.

Lemma validation_loop_replace (pre post : list snippet) (s1 s2 : snippet) :
  kept s1 = kept s2 -> warned s1 = warned s2 ->
  validation_loop (pre ++ s1 :: post) = validation_loop (pre ++ s2 :: post).
Proof. intros Hk Hw. unfold validation_loop, enumerate. by apply for_each_replace. Qed.

(** C10. In a paired group the mean and deviation keys are coupled in one
    direction only. With the mean key present and the deviation key absent,
    assembly raises and the snippet is skipped with the warning of a failed
    extraction. With the mean key absent, a deviation key is not looked at:
    whatever it holds, the vector and the treatment of the snippet are those
    of the dictionary without it. *)
Theorem paired_group_coupling (d : gmap string pyval) (mean_key std_key : string) :
  paired_group mean_key std_key ->
  (is_Some (d !! mean_key) -> d !! std_key = None ->
   exists e,
     extract_feature_vector d = inl e /\
     forall (id : string) (pre post : list snippet),
       loop_completes pre -> loop_completes post ->
       validation_loop (pre ++ {| snippet_id := Some id; features := d |} :: post)
       = (loop_log pre ++ Warning_failed id e :: loop_log post,
          Ok (loop_vectors pre ++ loop_vectors post,
              loop_indices pre ++ map (Nat.add (S (length pre))) (loop_indices post)))) /\
  (d !! mean_key = None ->
   forall v : pyval,
     extract_feature_vector (<[std_key := v]> d)
     = extract_feature_vector (delete std_key d) /\
     forall (id : option string) (pre post : list snippet),
       validation_loop (pre ++ {| snippet_id := id; features := <[std_key := v]> d |} :: post)
       = validation_loop (pre ++ {| snippet_id := id; features := delete std_key d |} :: post)).
Proof.
  intros Hpair. split.
  - intros Hm Hs.
    destruct (assemble_missing_std d _ _ Hpair Hm Hs) as [e He].
    exists e.
    assert (Hx : extract_feature_vector d = inl e).
    { unfold extract_feature_vector. by rewrite He. }
    split; [exact Hx |].
    intros id pre post Hpre Hpost.
    apply validation_loop_skip; try assumption; unfold kept, warned; simpl; by rewrite Hx.
  - intros Hm v.
    assert (Hx : extract_feature_vector (<[std_key := v]> d)
                 = extract_feature_vector (delete std_key d)).
    { unfold extract_feature_vector. by rewrite (assemble_ignores_std d _ _ v Hpair Hm). }
    split; [exact Hx |].
    intros id pre post.
    apply validation_loop_replace; unfold kept, warned; simpl; by rewrite Hx.
Qed.

Lemma paired_group_coupling_witness :
  paired_group "mfcc_mean" "mfcc_std" /\
  (exists e,
     extract_feature_vector (features snippet_no_std) = inl e /\
     validation_loop ([snippet_ok] ++ snippet_no_std :: [snippet_nan])
     = ([Warning_failed "b" e; Warning_invalid "c"], Ok ([Arr1 [4%float; 2%float]], [0]))) /\
  extract_feature_vector (<["mfcc_std" := PyList [PyFloat 1%float]]> (features snippet_empty))
  = extract_feature_vector (delete "mfcc_std" (features snippet_empty)).
Proof.
  assert (Hp : paired_group "mfcc_mean" "mfcc_std") by (left; split; reflexivity).
  split; [exact Hp |].
  pose proof (paired_group_coupling (features snippet_no_std) _ _ Hp) as [Hraise _].
  pose proof (paired_group_coupling (features snippet_empty) _ _ Hp) as [_ Hignore].
  split.
  - destruct Hraise as (e & He & Hloop); [by eexists | reflexivity |].
    exists e. split; [exact He |].
    apply (Hloop "b" [snippet_ok] [snippet_nan]);
      unfold loop_completes; vm_compute; eauto.
  - apply (Hignore eq_refl (PyList [PyFloat 1%float])).
Defined.

(** ** The stages after the loop *)

(** [cluster_valid] stage by stage: the log and the outcome at each point
    where the run can end. *)
Lemma cluster_valid_stages (C : Collaborators) (fvs : list ndarray) (vis : list nat) :
  fvs <> [] ->
  cluster_valid C fvs vis =
  let n := Z.of_nat (length fvs) in
  match np_array_stack fvs with
  | inl e => ([], inl e)
  | inr X =>
    match StandardScaler_fit_transform C X with
    | inl msg => ([Call_scaler X], inl (CollaboratorError Scaler msg))
    | inr Xs =>
      match HDBSCAN_fit_predict C (hdbscan_parameters n) Xs with
      | inl msg =>
          ([Call_scaler X; Call_hdbscan (hdbscan_parameters n) Xs],
           inl (CollaboratorError Clusterer msg))
      | inr labels =>
        match centers_loop C Xs labels (sorted (unique_non_noise labels)) [] with
        | inl e =>
            ([Call_scaler X; Call_hdbscan (hdbscan_parameters n) Xs], inl e)
        | inr centers =>
            ([Call_scaler X; Call_hdbscan (hdbscan_parameters n) Xs;
              Call_umap (umap_parameters n) Xs],
             match UMAP_fit_transform C (umap_parameters n) Xs with
             | inl msg => inl (CollaboratorError Reducer msg)
             | inr embedding =>
                 inr {| cluster_labels := labels;
                        umap_embeddings := embedding;
                        cluster_centers := centers;
                        valid_indices := vis;
                        total_clusters := size (unique_non_noise labels);
                        noise_points := count_noise labels |}
             end)
        end
      end
    end
  end.
Proof.
  intros Hne. unfold cluster_valid.
  destruct fvs as [| a fvs]; [done |].
  cbn [length Nat.eqb].
  destruct (np_array_stack (a :: fvs)) as [e | X]; [reflexivity |].
  unfold call_scaler, call_hdbscan, call_umap, answer. cbn.
  destruct (StandardScaler_fit_transform C X) as [msg | Xs]; [reflexivity |]. cbn.
  destruct (HDBSCAN_fit_predict C _ Xs) as [msg | labels]; [reflexivity |]. cbn.
  destruct (centers_loop C Xs labels _ []) as [e | centers]; [reflexivity |]. cbn.
  destruct (UMAP_fit_transform C _ Xs) as [msg | embedding]; reflexivity.
Qed.

Lemma cluster_valid_nil (C : Collaborators) (vis : list nat) :
  cluster_valid C [] vis = ([], inl no_valid_data).
Proof. reflexivity. Qed.

Lemma np_array_stack_error (fvs : list ndarray) (e : exn) :
  np_array_stack fvs = inl e -> e = ValueError "inhomogeneous shape".
Proof.
  destruct fvs as [| a rest]; simpl; [discriminate |].
  destruct (forallb (same_shape a) rest); [discriminate | congruence].
Qed.

Lemma np_array_stack_ok (fvs X : list ndarray) :
  np_array_stack fvs = inr X -> X = fvs.
Proof.
  destruct fvs as [| a rest]; simpl; [congruence |].
  destruct (forallb (same_shape a) rest); [congruence | discriminate].
Qed.

Lemma centers_loop_error (C : Collaborators) (Xs : matrix) (labels todo : list Z)
    (acc : list (list float)) (e : exn) :
  centers_loop C Xs labels todo acc = inl e -> exists msg, e = IndexError msg.
Proof.
  revert acc. induction todo as [| l todo IH]; intros acc; simpl; [discriminate |].
  destruct (negb (l =? -1)%Z); [| apply IH].
  unfold boolean_index.
  destruct (Nat.eqb _ _); simpl; [apply IH |].
  intros [= <-]. eauto.
Qed.

Lemma cluster_valid_not_no_valid_data (C : Collaborators)
    (fvs : list ndarray) (vis : list nat) :
  fvs <> [] -> snd (cluster_valid C fvs vis) <> inl no_valid_data.
Proof.
  intros Hne. rewrite (cluster_valid_stages C fvs vis Hne). cbv zeta.
  destruct (np_array_stack fvs) as [e | X] eqn:EX.
  { apply np_array_stack_error in EX as ->. simpl. discriminate. }
  destruct (StandardScaler_fit_transform C X) as [msg | Xs]; [simpl; discriminate |].
  destruct (HDBSCAN_fit_predict C _ Xs) as [msg | labels]; [simpl; discriminate |].
  destruct (centers_loop C Xs labels _ []) as [e | centers] eqn:EC.
  { apply centers_loop_error in EC as [msg ->]. simpl. discriminate. }
  simpl. destruct (UMAP_fit_transform C _ Xs); discriminate.
Qed.

(** C5. The pipeline ends in [ValueError("No valid feature vectors found")]
    exactly when the loop goes through the batch and keeps no vector; it
    then has printed its warnings, called no collaborator and built no
    result. *)
Theorem no_valid_data_iff_empty (C : Collaborators) (features_data : list snippet) :
  (snd (perform_clustering C features_data) = inl no_valid_data
   <-> loop_completes features_data /\ length (loop_vectors features_data) = 0) /\
  (loop_completes features_data -> length (loop_vectors features_data) = 0 ->
   perform_clustering C features_data = (loop_log features_data, inl no_valid_data)) /\
  (length (loop_vectors features_data) <> 0 ->
   snd (perform_clustering C features_data) <> inl no_valid_data).
Proof.
  assert (Hzero : loop_completes features_data ->
                  length (loop_vectors features_data) = 0 ->
                  perform_clustering C features_data
                  = (loop_log features_data, inl no_valid_data)).
  { intros Hl Hlen. apply length_zero_iff_nil in Hlen.
    rewrite (perform_clustering_unfold C _ Hl), Hlen, cluster_valid_nil.
    by rewrite app_nil_r. }
  assert (Hpos : length (loop_vectors features_data) <> 0 ->
                 snd (perform_clustering C features_data) <> inl no_valid_data).
  { intros Hlen.
    assert (Hne : loop_vectors features_data <> []) by (intros E; by rewrite E in Hlen).
    rewrite (perform_clustering_unfold C _ (loop_vectors_completes _ Hne)).
    pose proof (cluster_valid_not_no_valid_data C _ (loop_indices features_data) Hne) as Hnot.
    destruct (cluster_valid C _ _) as [log r]. exact Hnot. }
  split; [| split; [exact Hzero | exact Hpos]].
  split.
  - intros Hraise.
    destruct (loop_outcome features_data) as [Hl | Hab].
    + split; [exact Hl |].
      destruct (Nat.eq_dec (length (loop_vectors features_data)) 0) as [Hz | Hnz];
        [exact Hz | destruct (Hpos Hnz Hraise)].
    + rewrite (perform_clustering_aborted C _ _ Hab) in Hraise. discriminate Hraise.
  - intros [Hl Hlen]. by rewrite (Hzero Hl Hlen).
Qed.

Lemma no_valid_data_iff_empty_witness :
  (loop_completes [snippet_no_std; snippet_nan] /\
   length (loop_vectors [snippet_no_std; snippet_nan]) = 0 /\
   perform_clustering plain_collaborators [snippet_no_std; snippet_nan]
   = ([Warning_failed "b" (KeyError "mfcc_std"); Warning_invalid "c"],
      inl no_valid_data)) /\
  (length (loop_vectors [snippet_nan; snippet_ok]) <> 0 /\
   snd (perform_clustering plain_collaborators [snippet_nan; snippet_ok])
   <> inl no_valid_data).
Proof.
  assert (Hl : loop_completes [snippet_no_std; snippet_nan])
    by (unfold loop_completes; vm_compute; eauto).
  split; [split; [exact Hl | split] | split].
  - reflexivity.
  - apply (proj1 (proj2 (no_valid_data_iff_empty plain_collaborators
                           [snippet_no_std; snippet_nan])) Hl).
    reflexivity.
  - vm_compute. discriminate.
  - apply (proj2 (proj2 (no_valid_data_iff_empty plain_collaborators
                           [snippet_nan; snippet_ok]))).
    vm_compute. discriminate.
Defined.

(** ** Batches without any recognized feature group *)

Lemma extract_unrecognized (s : snippet) :
  no_recognized_group s -> extract_feature_vector (features s) = Ok (Arr1 []).
Proof.
  intros Hs. unfold no_recognized_group, recognized_keys in Hs.
  apply Forall_app in Hs as [Hmfcc Hs].
  apply Forall_app in Hs as [Hsc Hchroma].
  inversion Hmfcc as [| ? ? Hm Hmfcc']; subst.
  inversion Hchroma as [| ? ? Hc Hchroma']; subst.
  assert (Hab : assemble (features s) = assemble ∅).
  { apply assemble_ext.
    - by rewrite Hm.
    - rewrite Hm. intros [? ?]; discriminate.
    - by rewrite Hc.
    - rewrite Hc. intros [? ?]; discriminate.
    - eapply Forall_impl; [exact Hsc |]. simpl. intros k ->. by rewrite lookup_empty. }
  unfold extract_feature_vector. rewrite Hab. reflexivity.
Qed.

Lemma kept_unrecognized (s : snippet) :
  no_recognized_group s -> kept s = Some (Arr1 []) /\ warned s = None.
Proof.
  intros Hs. unfold kept, warned. rewrite (extract_unrecognized s Hs).
  by destruct (snippet_id s).
Qed.

Lemma validation_loop_unrecognized (l : list snippet) :
  Forall no_recognized_group l ->
  validation_loop l = ([], Ok (map (fun _ => Arr1 []) l, seq 0 (length l))).
Proof.
  intros Hl. rewrite validation_loop_spec.
  2:{ eapply Forall_impl; [exact Hl |]. intros s Hs Hk.
      rewrite (proj1 (kept_unrecognized s Hs)) in Hk. discriminate Hk. }
  assert (Hw : omap warned l = []).
  { induction Hl as [| s l Hs _ IH]; [reflexivity |].
    simpl. by rewrite (proj2 (kept_unrecognized s Hs)). }
  assert (Hk : omap kept l = map (fun _ => Arr1 []) l).
  { clear Hw. induction Hl as [| s l Hs _ IH]; [reflexivity |].
    simpl. rewrite (proj1 (kept_unrecognized s Hs)). simpl. f_equal. exact IH. }
  assert (Hp : forall k, kept_positions k l = seq k (length l)).
  { clear Hw Hk. induction Hl as [| s l Hs _ IH]; intros k; [reflexivity |].
    simpl. by rewrite (proj1 (kept_unrecognized s Hs)), IH. }
  by rewrite Hw, Hk, Hp.
Qed.

(** C4, as the code has it. In a batch where no features mapping holds a
    recognized key, every assembled vector is zero-length and, having no
    not-a-number or infinite component, every one of them is kept: nothing is
    skipped, no warning is printed, every position is a valid index, and the
    run ends in [ValueError("No valid feature vectors found")] only for the
    batch without snippets. *)
Theorem unrecognized_batch_is_kept (C : Collaborators) (features_data : list snippet) :
  Forall no_recognized_group features_data ->
  Forall (fun s => extract_feature_vector (features s) = Ok (Arr1 [])) features_data /\
  validation_loop features_data
  = ([], Ok (map (fun _ => Arr1 []) features_data, seq 0 (length features_data))) /\
  (snd (perform_clustering C features_data) = inl no_valid_data
   <-> features_data = []).
Proof.
  intros Hall.
  pose proof (validation_loop_unrecognized features_data Hall) as Hloop.
  split; [| split; [exact Hloop |]].
  - eapply Forall_impl; [exact Hall |]. apply extract_unrecognized.
  - assert (Hv : loop_vectors features_data = map (fun _ => Arr1 []) features_data).
    { unfold loop_vectors. by rewrite Hloop. }
    assert (Hc : loop_completes features_data).
    { unfold loop_completes. rewrite Hloop. eauto. }
    rewrite (perform_clustering_unfold C _ Hc), Hv.
    destruct features_data as [| s l].
    + rewrite cluster_valid_nil. done.
    + split; [| discriminate].
      intros Hraise. exfalso.
      assert (Hne : map (fun _ : snippet => Arr1 []) (s :: l) <> []) by discriminate.
      pose proof (cluster_valid_not_no_valid_data C _ (loop_indices (s :: l)) Hne) as Hnot.
      destruct (cluster_valid C _ _) as [log r]. by apply Hnot.
Qed.

Lemma unrecognized_batch_is_kept_witness :
  Forall no_recognized_group [snippet_empty; snippet_empty] /\
  validation_loop [snippet_empty; snippet_empty]
  = ([], Ok ([Arr1 []; Arr1 []], [0; 1])).
Proof.
  assert (H : Forall no_recognized_group [snippet_empty; snippet_empty]).
  { repeat constructor. }
  split; [exact H |].
  exact (proj1 (proj2 (unrecognized_batch_is_kept plain_collaborators _ H))).
Defined.

(** C4 as stated fails on the batch of one snippet with an empty features
    mapping: its zero-length vector is kept, no warning is printed, and the
    run does not end in the no-valid-data error, whatever the collaborators. *)
Lemma empty_features_counterexample :
  Forall no_recognized_group [snippet_empty] /\
  extract_feature_vector (features snippet_empty) = Ok (Arr1 []) /\
  validation_loop [snippet_empty] = ([], Ok ([Arr1 []], [0])) /\
  (forall C : Collaborators,
     snd (perform_clustering C [snippet_empty]) <> inl no_valid_data).
Proof.
  split; [repeat constructor |].
  split; [reflexivity |].
  split; [reflexivity |].
  intros C.
  assert (Hne : loop_vectors [snippet_empty] <> []) by (vm_compute; discriminate).
  rewrite (perform_clustering_unfold C _ (loop_vectors_completes _ Hne)).
  pose proof (cluster_valid_not_no_valid_data C _ (loop_indices [snippet_empty]) Hne) as Hnot.
  destruct (cluster_valid C _ _) as [log r]. exact Hnot.
Qed.

(** ** Batches with fewer than two valid samples *)

Lemma elem_of_omap_warned (w : event) (l : list snippet) :
  w ∈ omap warned l ->
  (exists id, w = Warning_invalid id) \/ (exists id e, w = Warning_failed id e).
Proof.
  intros (s & _ & Hw)%list_elem_of_omap. unfold warned in Hw.
  destruct (snippet_id s) as [id |]; [| discriminate].
  destruct (extract_feature_vector (features s)) as [e | v].
  - injection Hw as <-. eauto.
  - destruct (negb (np_any_isnan v) && negb (np_any_isinf v)); [discriminate |].
    injection Hw as <-. eauto.
Qed.

(** The log of the loop holds warnings only. *)
Lemma loop_log_warnings (l : list snippet) (w : event) :
  w ∈ loop_log l ->
  (exists id, w = Warning_invalid id) \/ (exists id e, w = Warning_failed id e).
Proof.
  destruct (snd (validation_loop l)) as [e | acc] eqn:E.
  - apply validation_loop_error in E as (_ & _ & _ & pre & s & post & _ & ->).
    apply elem_of_omap_warned.
  - rewrite loop_log_spec by (unfold loop_completes; eauto).
    apply elem_of_omap_warned.
Qed.

Lemma loop_log_no_embedding (l : list snippet) (p : umap_params) (X : matrix) :
  Call_umap p X ∉ loop_log l.
Proof.
  intros [[id Hw] | (id & e & Hw)]%loop_log_warnings; discriminate Hw.
Qed.

(** C3, as the code has it. With no valid sample the run ends in the
    no-valid-data error before any collaborator is called. With exactly one
    valid sample the pipeline turns nothing away: it calls the scaler on the
    one vector and, when the scaler returns, the clusterer with the
    parameters selected for one sample; every error of the run comes out of a
    library call; when the clusterer refuses, the run ends there with the
    clusterer's error, before the embedding; and the embedding is called
    exactly when scaler, clusterer and the computation of the centers have
    returned. *)
Theorem fewer_than_two_valid_samples (C : Collaborators) (features_data : list snippet) :
  (loop_completes features_data -> length (loop_vectors features_data) = 0 ->
   perform_clustering C features_data = (loop_log features_data, inl no_valid_data)) /\
  (length (loop_vectors features_data) = 1 ->
   (exists rest,
      fst (perform_clustering C features_data)
      = loop_log features_data ++ Call_scaler (loop_vectors features_data) :: rest) /\
   (forall e, snd (perform_clustering C features_data) = inl e -> raised_by_library e) /\
   (forall (Xs : matrix) (msg : string),
      StandardScaler_fit_transform C (loop_vectors features_data) = inr Xs ->
      HDBSCAN_fit_predict C (hdbscan_parameters 1) Xs = inl msg ->
      perform_clustering C features_data
      = (loop_log features_data
         ++ [Call_scaler (loop_vectors features_data);
             Call_hdbscan (hdbscan_parameters 1) Xs],
         inl (CollaboratorError Clusterer msg))) /\
   (embedding_called (fst (perform_clustering C features_data)) <->
    exists (Xs : matrix) (labels : list Z) (centers : list (list float)),
      StandardScaler_fit_transform C (loop_vectors features_data) = inr Xs /\
      HDBSCAN_fit_predict C (hdbscan_parameters 1) Xs = inr labels /\
      centers_loop C Xs labels (sorted (unique_non_noise labels)) [] = inr centers)).
Proof.
  split.
  - intros Hl Hlen. apply length_zero_iff_nil in Hlen.
    rewrite (perform_clustering_unfold C _ Hl), Hlen, cluster_valid_nil.
    by rewrite app_nil_r.
  - intros Hlen.
    assert (Hne : loop_vectors features_data <> []) by (intros E; by rewrite E in Hlen).
    rewrite (perform_clustering_unfold C _ (loop_vectors_completes _ Hne)).
    pose proof (loop_log_no_embedding features_data) as Hlog.
    destruct (loop_vectors features_data) as [| a [| b rest]] eqn:Ev;
      [discriminate Hlen | | discriminate Hlen].
    rewrite cluster_valid_stages by discriminate.
    cbv zeta. change (Z.of_nat (length [a])) with 1%Z.
    cbn [np_array_stack forallb].
    assert (Hno : forall calls : list event,
              (forall p X, Call_umap p X ∉ calls) ->
              ~ embedding_called (loop_log features_data ++ calls)).
    { intros calls Hcalls (p & X & [Hin | Hin]%elem_of_app);
        [by apply (Hlog p X) | by apply (Hcalls p X)]. }
    destruct (StandardScaler_fit_transform C [a]) as [msg | Xs] eqn:ES.
    { simpl. split; [eauto |]. split; [intros e [= <-]; left; eauto |].
      split; [discriminate |]. split.
      - intros Hcall. exfalso. revert Hcall. apply Hno.
        intros p X Hin. apply list_elem_of_singleton in Hin. discriminate Hin.
      - intros (Xs & labels & centers & Hs & _). discriminate Hs. }
    destruct (HDBSCAN_fit_predict C (hdbscan_parameters 1) Xs) as [msg | labels] eqn:EH.
    { simpl. split; [eauto |]. split; [intros e [= <-]; left; eauto |].
      split; [intros Xs' msg' [= <-]; rewrite EH; by intros [= <-] |]. split.
      - intros Hcall. exfalso. revert Hcall. apply Hno.
        intros p X Hin. repeat (apply elem_of_cons in Hin as [Hin | Hin]; [discriminate Hin |]).
        by apply elem_of_nil in Hin.
      - intros (Xs' & labels & centers & [= <-] & Hh & _). congruence. }
    destruct (centers_loop C Xs labels _ []) as [e | centers] eqn:EC.
    { simpl. split; [eauto |].
      split; [intros e' [= <-]; right; by apply centers_loop_error in EC |].
      split; [intros Xs' msg' [= <-]; rewrite EH; discriminate |]. split.
      - intros Hcall. exfalso. revert Hcall. apply Hno.
        intros p X Hin. repeat (apply elem_of_cons in Hin as [Hin | Hin]; [discriminate Hin |]).
        by apply elem_of_nil in Hin.
      - intros (Xs' & labels' & centers & [= <-] & Hh & Hc).
        assert (labels' = labels) as -> by congruence. congruence. }
    simpl. split; [eauto |]. split.
    { intros e He. destruct (UMAP_fit_transform C _ Xs); [| discriminate He].
      injection He as <-. left. eauto. }
    split; [intros Xs' msg' [= <-]; rewrite EH; discriminate |]. split.
    + intros _. exists Xs, labels, centers. done.
    + intros _. exists (umap_parameters 1), Xs.
      apply elem_of_app. right. repeat constructor.
Qed.

Lemma fewer_than_two_valid_samples_witness :
  (loop_completes [snippet_no_std] /\
   length (loop_vectors [snippet_no_std]) = 0 /\
   perform_clustering strict_collaborators [snippet_no_std]
   = ([Warning_failed "b" (KeyError "mfcc_std")], inl no_valid_data)) /\
  (length (loop_vectors [snippet_nan; snippet_ok]) = 1 /\
   perform_clustering strict_collaborators [snippet_nan; snippet_ok]
   = ([Warning_invalid "c";
       Call_scaler [Arr1 [4%float; 2%float]];
       Call_hdbscan (small_dataset_row 1) [[4%float; 2%float]]],
      inl (CollaboratorError Clusterer "too few samples"))).
Proof.
  assert (Hl : loop_completes [snippet_no_std])
    by (unfold loop_completes; vm_compute; eauto).
  split; [split; [exact Hl | split] | split].
  - reflexivity.
  - apply (proj1 (fewer_than_two_valid_samples strict_collaborators [snippet_no_std]) Hl).
    reflexivity.
  - reflexivity.
  - destruct (proj2 (fewer_than_two_valid_samples strict_collaborators
                       [snippet_nan; snippet_ok]) eq_refl) as (_ & _ & Hrefuse & _).
    exact (Hrefuse [[4%float; 2%float]] "too few samples" eq_refl eq_refl).
Defined.

(** C3 as stated fails on a batch of exactly one valid snippet: whatever the
    collaborators do, the pipeline does not turn the batch away. It calls the
    scaler on the one vector; when the scaler returns it calls the clusterer,
    asking for clusters of two on one sample; and when the run ends in an
    error, the error comes out of a library call, none is the pipeline's. *)
Lemma single_valid_sample_counterexample :
  length (loop_vectors [snippet_ok]) = 1 /\
  forall C : Collaborators,
    (exists rest,
       fst (perform_clustering C [snippet_ok]) = Call_scaler [Arr1 [4%float; 2%float]] :: rest) /\
    (forall e, snd (perform_clustering C [snippet_ok]) = inl e -> raised_by_library e) /\
    (forall Xs : matrix,
       StandardScaler_fit_transform C [Arr1 [4%float; 2%float]] = inr Xs ->
       Call_hdbscan (small_dataset_row 1) Xs ∈ fst (perform_clustering C [snippet_ok])).
Proof.
  split; [reflexivity |]. intros C.
  assert (Hc : loop_completes [snippet_ok]) by (unfold loop_completes; vm_compute; eauto).
  assert (Hv : loop_vectors [snippet_ok] = [Arr1 [4%float; 2%float]]) by reflexivity.
  assert (Hw : loop_log [snippet_ok] = []) by reflexivity.
  rewrite (perform_clustering_unfold C _ Hc), Hv, Hw.
  rewrite cluster_valid_stages by discriminate.
  cbv zeta. change (Z.of_nat (length [Arr1 [4%float; 2%float]])) with 1%Z.
  cbn [np_array_stack forallb].
  change (hdbscan_parameters 1) with (small_dataset_row 1).
  destruct (StandardScaler_fit_transform C _) as [msg | Xs].
  { simpl. split; [eauto |]. split; [intros e [= <-]; left; eauto | discriminate]. }
  destruct (HDBSCAN_fit_predict C _ Xs) as [msg | labels].
  { simpl. split; [eauto |]. split; [intros e [= <-]; left; eauto |].
    intros Xs' [= <-]. repeat constructor. }
  destruct (centers_loop C Xs labels _ []) as [e | centers] eqn:EC.
  { simpl. split; [eauto |].
    split; [intros e' [= <-]; right; by apply centers_loop_error in EC |].
    intros Xs' [= <-]. repeat constructor. }
  simpl. split; [eauto |]. split.
  - intros e He. destruct (UMAP_fit_transform C _ Xs); [| discriminate He].
    injection He as <-. left. eauto.
  - intros Xs' [= <-]. repeat constructor.
Qed.

(** ** The result *)

Lemma result_completes (C : Collaborators) (features_data : list snippet)
    (log : list event) (r : results) :
  perform_clustering C features_data = (log, inr r) -> loop_completes features_data.
Proof.
  intros Hrun. destruct (loop_outcome features_data) as [Hl | Hab]; [exact Hl |].
  rewrite (perform_clustering_aborted C _ _ Hab) in Hrun. discriminate Hrun.
Qed.

(** A run that returns a result went through every stage. *)
Lemma perform_clustering_result (C : Collaborators) (features_data : list snippet)
    (log : list event) (r : results) :
  perform_clustering C features_data = (log, inr r) ->
  let n := Z.of_nat (length (loop_vectors features_data)) in
  exists Xs : matrix,
    loop_vectors features_data <> [] /\
    StandardScaler_fit_transform C (loop_vectors features_data) = inr Xs /\
    HDBSCAN_fit_predict C (hdbscan_parameters n) Xs = inr (cluster_labels r) /\
    centers_loop C Xs (cluster_labels r) (sorted (unique_non_noise (cluster_labels r))) []
    = inr (cluster_centers r) /\
    UMAP_fit_transform C (umap_parameters n) Xs = inr (umap_embeddings r) /\
    valid_indices r = loop_indices features_data /\
    total_clusters r = size (unique_non_noise (cluster_labels r)) /\
    noise_points r = count_noise (cluster_labels r) /\
    log = loop_log features_data
          ++ [Call_scaler (loop_vectors features_data);
              Call_hdbscan (hdbscan_parameters n) Xs;
              Call_umap (umap_parameters n) Xs].
Proof.
  intros Hrun n. subst n.
  rewrite (perform_clustering_unfold C _ (result_completes C _ _ _ Hrun)) in Hrun.
  destruct (loop_vectors features_data) as [| a fvs] eqn:Ev.
  { rewrite cluster_valid_nil in Hrun. discriminate Hrun. }
  rewrite cluster_valid_stages in Hrun by discriminate. cbv zeta in Hrun.
  destruct (np_array_stack (a :: fvs)) as [e | X] eqn:EX; [discriminate Hrun |].
  apply np_array_stack_ok in EX as ->.
  destruct (StandardScaler_fit_transform C (a :: fvs)) as [msg | Xs] eqn:ES;
    [discriminate Hrun |].
  destruct (HDBSCAN_fit_predict C _ Xs) as [msg | labels] eqn:EH; [discriminate Hrun |].
  destruct (centers_loop C Xs labels _ []) as [e | centers] eqn:EC; [discriminate Hrun |].
  destruct (UMAP_fit_transform C _ Xs) as [msg | embedding] eqn:EU; [discriminate Hrun |].
  injection Hrun as <- <-. simpl.
  exists Xs. repeat split; done.
Qed.

Lemma boolean_index_rows (Xs : matrix) (labels : list Z) (label : Z) (rows : matrix) :
  boolean_index Xs (map (fun l => (l =? label)%Z) labels) = inr rows ->
  rows = rows_with_label Xs labels label /\ length labels = length Xs.
Proof.
  unfold boolean_index. rewrite length_map.
  destruct (Nat.eqb_spec (length labels) (length Xs)) as [Hlen | _]; [| discriminate].
  intros [= <-]. split; [| exact Hlen]. clear Hlen.
  revert labels. induction Xs as [| row Xs IH]; intros [| l labels]; simpl; try reflexivity.
  destruct (Z.eqb_spec l label) as [-> | Hne]; simpl.
  - rewrite decide_True by reflexivity. by rewrite IH.
  - rewrite decide_False by exact Hne. apply IH.
Qed.

Lemma centers_loop_ok (C : Collaborators) (Xs : matrix) (labels todo : list Z)
    (acc centers : list (list float)) :
  Forall (fun l => l <> (-1)%Z) todo ->
  centers_loop C Xs labels todo acc = inr centers ->
  centers = acc ++ map (fun l => np_mean_axis0 C (rows_with_label Xs labels l)) todo.
Proof.
  intros Htodo. revert acc.
  induction Htodo as [| l todo Hl _ IH]; intros acc; simpl.
  - intros [= <-]. by rewrite app_nil_r.
  - destruct (Z.eqb_spec l (-1)%Z) as [Heq | _]; [done |]. simpl.
    destruct (boolean_index Xs _) as [e | rows] eqn:EB; simpl; [discriminate |].
    apply boolean_index_rows in EB as [-> _].
    intros Hrun. rewrite (IH _ Hrun), <- app_assoc. reflexivity.
Qed.

Lemma elem_of_unique_non_noise (labels : list Z) (l : Z) :
  l ∈ unique_non_noise labels <-> l ∈ labels /\ l <> (-1)%Z.
Proof.
  unfold unique_non_noise. case_decide as Hin.
  - rewrite elem_of_difference, elem_of_list_to_set, not_elem_of_singleton. done.
  - rewrite elem_of_list_to_set in Hin. rewrite elem_of_list_to_set.
    split; [| tauto]. intros Hl. split; [exact Hl |]. by intros ->.
Qed.

Lemma elem_of_sorted (s : gset Z) (l : Z) : l ∈ sorted s <-> l ∈ s.
Proof.
  unfold sorted. rewrite (merge_sort_Permutation Z.le (elements s)).
  apply elem_of_elements.
Qed.


Lemma sorted_length (s : gset Z) : length (sorted s) = size s.
Proof.
  unfold sorted. by rewrite (merge_sort_Permutation Z.le (elements s)).
Qed.



Lemma size_unique_non_noise (labels : list Z) :
  size (unique_non_noise labels)
  = length (remove_dups (filter (fun l => l <> (-1)%Z) labels)).
Proof.
  unfold size, set_size. simpl. apply Permutation_length.
  apply NoDup_Permutation; [apply NoDup_elements | apply NoDup_remove_dups |].
  intros l. rewrite elem_of_elements, elem_of_unique_non_noise,
    elem_of_remove_dups, list_elem_of_filter. tauto.
Qed.


(** C7. When a result is returned and the collaborators keep to their
    contracts, [valid_indices], [cluster_labels] and [umap_embeddings] have
    one length, and [valid_indices] is a strictly increasing list of distinct
    positions of the batch: a subsequence of [0, 1, ..., len - 1]. *)
Theorem valid_index_consistency (C : Collaborators) (features_data : list snippet)
    (log : list event) (r : results) :
  conforming C ->
  perform_clustering C features_data = (log, inr r) ->
  length (valid_indices r) = length (cluster_labels r) /\
  length (cluster_labels r) = length (umap_embeddings r) /\
  NoDup (valid_indices r) /\
  Forall (fun i => i < length features_data) (valid_indices r) /\
  StronglySorted lt (valid_indices r) /\
  sublist (valid_indices r) (seq 0 (length features_data)).
Proof.
  intros [Hscaler Hlabels Hpoints] Hrun.
  destruct (perform_clustering_result C features_data log r Hrun)
    as (Xs & _ & HS & HH & _ & HU & Hvi & _).
  apply Hscaler in HS. apply Hlabels in HH. apply Hpoints in HU.
  rewrite Hvi, loop_indices_length, HH, HU, HS,
    (loop_indices_spec _ (result_completes C _ _ _ Hrun)).
  pose proof (kept_positions_sublist 0 features_data) as Hsub.
  repeat split.
  - eapply sublist_NoDup; [apply NoDup_seq | exact Hsub].
  - eapply Forall_impl; [apply kept_positions_bounds |]. simpl. intros i Hi. lia.
  - apply kept_positions_sorted.
  - exact Hsub.
Qed.

Lemma cycling_collaborators_conforming : conforming cycling_collaborators.
Proof.
  split; simpl.
  - intros X Xs [= <-]. apply length_map.
  - intros _ X labels [= <-]. apply length_imap.
  - intros _ X E [= <-]. apply length_map.
Qed.

Lemma mixed_batch_run :
  perform_clustering cycling_collaborators mixed_batch = (mixed_log, inr mixed_result).
Proof. vm_compute. reflexivity. Qed.

Lemma valid_index_consistency_witness :
  conforming cycling_collaborators /\
  perform_clustering cycling_collaborators mixed_batch = (mixed_log, inr mixed_result) /\
  length (valid_indices mixed_result) = length (cluster_labels mixed_result) /\
  length (cluster_labels mixed_result) = length (umap_embeddings mixed_result) /\
  StronglySorted lt (valid_indices mixed_result).
Proof.
  pose proof (valid_index_consistency cycling_collaborators mixed_batch
                mixed_log mixed_result cycling_collaborators_conforming mixed_batch_run)
    as (H1 & H2 & _ & _ & H5 & _).
  split; [exact cycling_collaborators_conforming |].
  split; [exact mixed_batch_run |].
  split; [exact H1 |]. split; [exact H2 | exact H5].
Defined.

Lemma centers_loop_lengths (C : Collaborators) (Xs : matrix) (labels todo : list Z)
    (acc centers : list (list float)) (l : Z) :
  l ∈ todo -> Forall (fun l' => l' <> (-1)%Z) todo ->
  centers_loop C Xs labels todo acc = inr centers ->
  length labels = length Xs.
Proof.
  intros Hin Htodo. revert acc.
  induction Htodo as [| l' todo Hl' _ IH]; intros acc; [by apply elem_of_nil in Hin |].
  simpl. destruct (Z.eqb_spec l' (-1)%Z) as [Heq | _]; [done |]. simpl.
  destruct (boolean_index Xs _) as [e | rows] eqn:EB; simpl; [discriminate |].
  intros _. by apply boolean_index_rows in EB as [_ Hlen].
Qed.

Lemma rows_with_label_Forall (P : list float -> Prop) (Xs : matrix)
    (labels : list Z) (l : Z) :
  Forall P Xs -> Forall P (rows_with_label Xs labels l).
Proof.
  intros HP. revert labels.
  induction HP as [| row Xs Hrow _ IH]; intros [| l' labels]; simpl; try constructor.
  destruct (decide (l' = l)); [constructor; [exact Hrow | apply IH] | apply IH].
Qed.

Lemma rows_with_label_nonempty (Xs : matrix) (labels : list Z) (l : Z) :
  l ∈ labels -> length labels = length Xs -> rows_with_label Xs labels l <> [].
Proof.
  revert Xs. induction labels as [| l' labels IH]; intros Xs Hin Hlen;
    [by apply elem_of_nil in Hin |].
  destruct Xs as [| row Xs]; [discriminate Hlen |]. simpl.
  destruct (decide (l' = l)) as [_ | Hne]; [discriminate |].
  apply elem_of_cons in Hin as [-> | Hin]; [done |].
  apply IH; [exact Hin | by injection Hlen].
Qed.

Lemma np_mean_axis0_length (C : Collaborators) (rows : matrix) (d : nat) :
  rows <> [] -> Forall (fun row => length row = d) rows ->
  length (np_mean_axis0 C rows) = d.
Proof.
  destruct rows as [| r rest]; [done |]. intros _ Hall.
  apply Forall_cons in Hall as [Hr _].
  unfold np_mean_axis0. by rewrite length_map, length_seq.
Qed.






(** * Further properties *)

(** ** What [extract_feature_vector] returns and when it raises *)

Lemma as_scalars_numbers (ns : list pynum) : as_scalars (map PyNum ns) = Some ns.
Proof. induction ns as [| n ns IH]; simpl; [reflexivity |]. by rewrite IH. Qed.

Lemma extend_pair_values (d : gmap string pyval) (fv : list pyval) (mk sk : string) :
  pair_ok d mk sk ->
  extend_pair d fv mk sk = Ok (fv ++ map PyNum (pair_values d mk sk)).
Proof.
  unfold extend_pair, contains, subscript, pair_values.
  intros [Hm | (xs & ys & Hm & Hs)].
  - rewrite Hm. by rewrite app_nil_r.
  - rewrite Hm, Hs. simpl. by rewrite map_app, app_assoc.
Qed.

Lemma extend_pair_error (d : gmap string pyval) (fv : list pyval) (mk sk : string) :
  extend_pair d fv mk sk
  = match pair_error d mk sk with
    | Some e => Raise e
    | None => Ok (fv ++ map PyNum (pair_values d mk sk))
    end.
Proof.
  unfold extend_pair, contains, subscript, pair_error, pair_values.
  destruct (d !! mk) as [[[x | z] | xs] |]; simpl;
    [reflexivity | reflexivity | | by rewrite app_nil_r].
  destruct (d !! sk) as [[[y | z] | ys] |]; simpl; [reflexivity | reflexivity | | reflexivity].
  by rewrite map_app, app_assoc.
Qed.

Lemma pair_error_ok (d : gmap string pyval) (mk sk : string) :
  pair_error d mk sk = None <-> pair_ok d mk sk.
Proof.
  unfold pair_error, pair_ok.
  destruct (d !! mk) as [[n | xs] |]; [| | tauto].
  - split; [discriminate |]. intros [? | (xs & ys & ? & _)]; discriminate.
  - destruct (d !! sk) as [[n | ys] |].
    + split; [discriminate |]. intros [? | (xs' & ys & _ & ?)]; discriminate.
    + split; [| done]. intros _. right. eauto.
    + split; [discriminate |]. intros [? | (xs' & ys & _ & ?)]; discriminate.
Qed.

Lemma append_present_values (d : gmap string pyval) (names : list string) :
  Forall (fun k => forall v, d !! k = Some v -> exists n, v = PyNum n) names ->
  forall fv, append_present d fv names = fv ++ map PyNum (scalar_values d names).
Proof.
  unfold append_present.
  induction 1 as [| k names Hk _ IH]; intros fv; simpl; [by rewrite app_nil_r |].
  rewrite IH. destruct (d !! k) as [v |] eqn:E; [| reflexivity].
  destruct (Hk v eq_refl) as [n ->]. simpl. by rewrite <- app_assoc.
Qed.

Lemma assemble_well_typed (d : gmap string pyval) :
  well_typed d -> assemble d = Ok (map PyNum (layout d)).
Proof.
  intros (Hmfcc & Hchroma & Hsc). unfold scalars_ok, scalar_features in Hsc.
  apply Forall_app in Hsc as [Hsp Hsc].
  apply Forall_app in Hsc as [Hra Hsc].
  apply Forall_app in Hsc as [Hen Hme].
  unfold assemble.
  rewrite (extend_pair_values d [] _ _ Hmfcc). cbn [bind].
  rewrite (append_present_values d _ Hsp), (append_present_values d _ Hra),
    (append_present_values d _ Hen).
  rewrite (extend_pair_values d _ _ _ Hchroma). cbn [bind].
  rewrite (append_present_values d _ Hme).
  unfold layout. simpl. by rewrite !map_app, <- !app_assoc.
Qed.

Lemma fits_decide (n : pynum) : fits n \/ ~ fits n.
Proof.
  destruct n as [x | z]; simpl; [by left |].
  destruct (float_of_int z); [left; discriminate | right; intros H; by apply H].
Qed.

Lemma Forall_fits_decide (ns : list pynum) : Forall fits ns \/ ~ Forall fits ns.
Proof.
  induction ns as [| n ns [IH | IH]].
  - left. constructor.
  - destruct (fits_decide n) as [Hn | Hn]; [left; by constructor |].
    right. intros Hall. apply Hn. by inversion Hall.
  - right. intros Hall. apply IH. by inversion Hall.
Qed.

Lemma to_doubles_fits (ns : list pynum) :
  Forall fits ns -> to_doubles ns = Ok (map as_double ns).
Proof.
  induction 1 as [| n ns Hn _ IH]; [reflexivity |].
  simpl. rewrite IH. destruct n as [x | z]; simpl; [reflexivity |].
  simpl in Hn. by destruct (float_of_int z).
Qed.

Lemma to_doubles_overflow (ns : list pynum) :
  ~ Forall fits ns -> to_doubles ns = Raise int_too_large.
Proof.
  induction ns as [| n ns IH]; intros Hnot; [destruct Hnot; constructor |].
  simpl. destruct n as [x | z]; simpl.
  - rewrite IH; [reflexivity |]. intros Hall. apply Hnot. by constructor.
  - destruct (float_of_int z) as [x |] eqn:Ez; simpl; [| reflexivity].
    rewrite IH; [reflexivity |]. intros Hall. apply Hnot.
    constructor; [simpl; by rewrite Ez | exact Hall].
Qed.

Lemma extract_well_typed (d : gmap string pyval) :
  well_typed d -> extract_feature_vector d
  = let* xs := to_doubles (layout d) in Ok (Arr1 xs).
Proof.
  intros Hwt. unfold extract_feature_vector.
  rewrite (assemble_well_typed d Hwt). cbn [bind].
  unfold np_array_float. by rewrite as_scalars_numbers.
Qed.

(** X1. On a well-typed dictionary the vector is the documented
    concatenation: cepstral mean and deviation, the six spectral scalars,
    the two rate scalars, the two energy scalars, chroma mean and deviation,
    the three metadata scalars, each absent group left out, every integer
    turned into the nearest double. The one exception it can raise is
    [OverflowError], and it does exactly when one of these numbers is an
    integer beyond the range of a double. *)
Theorem extract_feature_vector_layout (d : gmap string pyval) :
  well_typed d ->
  (Forall fits (layout d) ->
   extract_feature_vector d = Ok (Arr1 (map as_double (layout d)))) /\
  (~ Forall fits (layout d) ->
   extract_feature_vector d = Raise int_too_large).
Proof.
  intros Hwt. rewrite (extract_well_typed d Hwt). split; intros Hfit.
  - by rewrite (to_doubles_fits _ Hfit).
  - by rewrite (to_doubles_overflow _ Hfit).
Qed.

Ltac solve_scalars_ok :=
  unfold scalars_ok, scalar_features;
  repeat constructor; intros ? Hv; vm_compute in Hv; try discriminate Hv;
  injection Hv as <-; eauto.

Lemma snippet_ok_well_typed : well_typed (features snippet_ok).
Proof. split; [by left | split; [by left | solve_scalars_ok]]. Qed.

Lemma snippet_huge_well_typed : well_typed (features snippet_huge).
Proof. split; [by left | split; [by left | solve_scalars_ok]]. Qed.

Lemma snippet_int_well_typed : well_typed (features snippet_int).
Proof. split; [by left | split; [by left | solve_scalars_ok]]. Qed.

Lemma extract_feature_vector_layout_witness :
  (well_typed (features snippet_ok) /\
   extract_feature_vector (features snippet_ok) = Ok (Arr1 [4%float; 2%float])) /\
  (well_typed (features snippet_int) /\
   extract_feature_vector (features snippet_int) = Ok (Arr1 [22050%float; 330750%float])) /\
  (well_typed (features snippet_huge) /\
   extract_feature_vector (features snippet_huge) = Raise int_too_large).
Proof.
  split; [split | split; split].
  - exact snippet_ok_well_typed.
  - apply (proj1 (extract_feature_vector_layout _ snippet_ok_well_typed)).
    vm_compute. repeat constructor.
  - exact snippet_int_well_typed.
  - apply (proj1 (extract_feature_vector_layout _ snippet_int_well_typed)).
    vm_compute. repeat constructor; discriminate.
  - exact snippet_huge_well_typed.
  - apply (proj2 (extract_feature_vector_layout _ snippet_huge_well_typed)).
    intros Hall. vm_compute in Hall.
    inversion Hall as [| ? ? Hbad _]; subst. by apply Hbad.
Defined.

Lemma not_recognized_ne (k k' : string) :
  k ∉ recognized_keys -> k' ∈ recognized_keys -> k ≠ k'.
Proof. intros Hk Hk' ->. by apply Hk. Qed.

(** X2. A key that [extract_feature_vector] does not know has no effect:
    adding it with any value, or removing it, leaves the outcome unchanged. *)
Theorem unrecognized_key_ignored (d : gmap string pyval) (k : string) (v : pyval) :
  k ∉ recognized_keys ->
  extract_feature_vector (<[k := v]> d) = extract_feature_vector d /\
  extract_feature_vector (delete k d) = extract_feature_vector d.
Proof.
  intros Hk.
  assert (Hne : forall k', k' ∈ recognized_keys -> k ≠ k')
    by (intros k'; apply not_recognized_ne, Hk).
  assert (Hsc : forall k', k' ∈ scalar_features -> k ≠ k').
  { intros k' Hin. apply Hne. unfold recognized_keys.
    apply elem_of_app. right. apply elem_of_app. by left. }
  assert (Hmm : k ≠ "mfcc_mean").
  { apply Hne, elem_of_app. left. repeat constructor. }
  assert (Hms : k ≠ "mfcc_std").
  { apply Hne, elem_of_app. left. repeat constructor. }
  assert (Hcm : k ≠ "chroma_mean").
  { apply Hne, elem_of_app. right. apply elem_of_app. right. repeat constructor. }
  assert (Hcs : k ≠ "chroma_std").
  { apply Hne, elem_of_app. right. apply elem_of_app. right. repeat constructor. }
  unfold extract_feature_vector.
  split; (erewrite assemble_ext; [reflexivity | ..]);
    rewrite ?lookup_insert_ne, ?lookup_delete_ne by done; try done;
    apply Forall_forall; intros k' Hin; specialize (Hsc k' Hin);
    by rewrite ?lookup_insert_ne, ?lookup_delete_ne by done.
Qed.

Lemma unrecognized_key_ignored_witness :
  ("species" ∉ recognized_keys) /\
  extract_feature_vector (<["species" := PyNum (PyFloat nan)]> (features snippet_ok))
  = Ok (Arr1 [4%float; 2%float]).
Proof.
  assert (H : "species" ∉ recognized_keys).
  { intros Hin. cbv [recognized_keys scalar_features spectral_features rate_features
                        energy_features metadata_features app] in Hin.
    repeat (apply elem_of_cons in Hin as [Heq | Hin]; [discriminate Heq |]).
    by apply elem_of_nil in Hin. }
  split; [exact H |].
  exact (proj1 (unrecognized_key_ignored (features snippet_ok) "species" (PyNum (PyFloat nan)) H)).
Defined.

(** X3. When every scalar key that is present holds a number, assembly
    raises exactly: the error of the first broken paired group, the cepstral
    one before the chroma one ([KeyError] naming the deviation key when the
    mean key holds a list and the deviation key is missing, [TypeError]
    naming the type when the mean or the deviation is a number instead of a
    list); or, with both groups intact, [OverflowError] when a number is an
    integer beyond the range of a double. *)
Theorem extract_feature_vector_error (d : gmap string pyval) (e : exn) :
  scalars_ok d ->
  (extract_feature_vector d = inl e <->
   pair_error d "mfcc_mean" "mfcc_std" = Some e \/
   (pair_error d "mfcc_mean" "mfcc_std" = None /\
    pair_error d "chroma_mean" "chroma_std" = Some e) \/
   (pair_error d "mfcc_mean" "mfcc_std" = None /\
    pair_error d "chroma_mean" "chroma_std" = None /\
    ~ Forall fits (layout d) /\ e = int_too_large)).
Proof.
  intros Hsc.
  destruct (pair_error d "mfcc_mean" "mfcc_std") as [e1 |] eqn:E1.
  - unfold extract_feature_vector, assemble.
    rewrite extend_pair_error, E1. cbn [bind].
    split; [intros [= ->]; by left |].
    intros [[= ->] | [[? _] | [? _]]]; done.
  - destruct (pair_error d "chroma_mean" "chroma_std") as [e2 |] eqn:E2.
    + unfold extract_feature_vector, assemble.
      rewrite extend_pair_error, E1. cbn [bind].
      rewrite extend_pair_error, E2. cbn [bind].
      split; [intros [= ->]; right; by left |].
      intros [? | [[_ [= ->]] | (_ & ? & _)]]; done.
    + assert (Hwt : well_typed d).
      { split; [by apply pair_error_ok | split; [by apply pair_error_ok | exact Hsc]]. }
      rewrite (extract_well_typed d Hwt).
      destruct (Forall_fits_decide (layout d)) as [Hfit | Hfit].
      * rewrite (to_doubles_fits _ Hfit). cbn [bind].
        split; [discriminate |]. intros [? | [[_ ?] | (_ & _ & Hnot & _)]]; done.
      * rewrite (to_doubles_overflow _ Hfit). cbn [bind].
        split; [intros [= <-]; right; right; done |].
        intros [? | [[_ ?] | (_ & _ & _ & ->)]]; done.
Qed.

Lemma extract_feature_vector_error_witness :
  (scalars_ok (features snippet_no_std) /\
   extract_feature_vector (features snippet_no_std) = inl (KeyError "mfcc_std")) /\
  (scalars_ok (features snippet_int_mean) /\
   extract_feature_vector (features snippet_int_mean)
   = inl (TypeError "'int' object is not iterable")).
Proof.
  assert (H1 : scalars_ok (features snippet_no_std)) by solve_scalars_ok.
  assert (H2 : scalars_ok (features snippet_int_mean)) by solve_scalars_ok.
  split; split; [exact H1 | | exact H2 |].
  - apply (proj2 (extract_feature_vector_error (features snippet_no_std) _ H1)).
    left. reflexivity.
  - apply (proj2 (extract_feature_vector_error (features snippet_int_mean) _ H2)).
    left. reflexivity.
Defined.

(** ** The validation loop, continued *)

Lemma kept_or_warned (s : snippet) :
  reportable s ->
  (exists v, kept s = Some v /\ warned s = None) \/
  (kept s = None /\ exists w, warned s = Some w).
Proof.
  intros Hs. destruct (kept s) as [v |] eqn:Ek.
  - left. exists v. split; [reflexivity | exact (kept_warned s v Ek)].
  - right. split; [reflexivity |].
    destruct (warned s) as [w |] eqn:Ew; [eauto |].
    apply (warned_id s Ek) in Ew. destruct (Hs Ek) as [id Hid]. congruence.
Qed.

Lemma omap_length_le {A B : Type} (f : A -> option B) (l : list A) :
  length (omap f l) <= length l.
Proof.
  induction l as [| x l IH]; [reflexivity |].
  cbn [omap list_omap length]. fold (omap f l).
  destruct (f x); cbn [length]; lia.
Qed.

(** X4. A loop that goes through the batch accounts for every snippet
    exactly once: it keeps its vector or prints one warning for it, so the
    warnings and the kept vectors together are as many as the snippets of the
    batch. A loop that stops at a snippet leaves fewer. Either way there is
    one valid index per kept vector. *)
Theorem validation_loop_accounts_for_all (features_data : list snippet) :
  (loop_completes features_data ->
   length (loop_log features_data) + length (loop_vectors features_data)
   = length features_data) /\
  (~ loop_completes features_data ->
   length (loop_log features_data) + length (loop_vectors features_data)
   < length features_data) /\
  length (loop_indices features_data) = length (loop_vectors features_data).
Proof.
  split; [| split; [| apply loop_indices_length]].
  - intros Hl. rewrite loop_log_spec, loop_vectors_spec by exact Hl.
    apply loop_completes_reportable in Hl.
    induction Hl as [| s l Hs _ IH]; [reflexivity |].
    cbn [omap list_omap length].
    destruct (kept_or_warned s Hs) as [(v & -> & ->) | (-> & w & ->)];
      cbn [length]; fold (omap warned l) (omap kept l); lia.
  - intros Hnot. destruct (loop_outcome features_data) as [Hl | Hab]; [done |].
    apply validation_loop_error in Hab as (_ & -> & _ & pre & s & post & -> & ->).
    pose proof (omap_length_le warned pre). rewrite length_app. simpl. lia.
Qed.

Lemma validation_loop_accounts_for_all_witness :
  (loop_completes mixed_batch /\
   length (loop_log mixed_batch) + length (loop_vectors mixed_batch) = 6) /\
  (~ loop_completes [snippet_nan; snippet_nameless; snippet_ok] /\
   length (loop_log [snippet_nan; snippet_nameless; snippet_ok])
   + length (loop_vectors [snippet_nan; snippet_nameless; snippet_ok]) < 3).
Proof.
  assert (H1 : loop_completes mixed_batch) by (unfold loop_completes; vm_compute; eauto).
  assert (H2 : ~ loop_completes [snippet_nan; snippet_nameless; snippet_ok]).
  { intros [acc Hacc]. vm_compute in Hacc. discriminate Hacc. }
  split; split.
  - exact H1.
  - exact (proj1 (validation_loop_accounts_for_all mixed_batch) H1).
  - exact H2.
  - exact (proj1 (proj2 (validation_loop_accounts_for_all _)) H2).
Defined.

Lemma kept_inv (s : snippet) (v : ndarray) :
  kept s = Some v <->
  extract_feature_vector (features s) = Ok v /\
  np_any_isnan v = false /\ np_any_isinf v = false.
Proof.
  unfold kept.
  destruct (extract_feature_vector (features s)) as [e | u].
  - split; [discriminate | intros [? _]; discriminate].
  - destruct (np_any_isnan u) eqn:En, (np_any_isinf u) eqn:Ei; simpl;
      (split; [intros [= <-] | intros ([= <-] & Hn & Hi)]); try done; congruence.
Qed.

Lemma kept_positions_pairs (k : nat) (l : list snippet) :
  Forall2 (fun i v => exists s, l !! (i - k) = Some s /\ k <= i /\ kept s = Some v)
    (kept_positions k l) (omap kept l).
Proof.
  revert k. induction l as [| s l IH]; intros k; [constructor |].
  cbn [kept_positions omap list_omap].
  assert (Htl : Forall2
            (fun i v => exists s', (s :: l) !! (i - k) = Some s' /\ k <= i /\ kept s' = Some v)
            (kept_positions (S k) l) (omap kept l)).
  { eapply Forall2_impl; [apply (IH (S k)) |]. simpl.
    intros i v (s' & Hl & Hi & Hk). exists s'.
    replace (i - k) with (S (i - S k)) by lia. simpl. repeat split; [done | lia | done]. }
  destruct (kept s) as [v |] eqn:Ek; [| exact Htl].
  constructor; [| exact Htl].
  exists s. rewrite Nat.sub_diag. done.
Qed.

Lemma elem_of_kept_positions (k i : nat) (l : list snippet) :
  i ∈ kept_positions k l <->
  k <= i /\ exists s v, l !! (i - k) = Some s /\ kept s = Some v.
Proof.
  revert k. induction l as [| s l IH]; intros k.
  - simpl. split; [intros H; by apply elem_of_nil in H |].
    intros (_ & s & v & Hl & _). discriminate Hl.
  - cbn [kept_positions].
    assert (Htl : i ∈ kept_positions (S k) l <->
                  S k <= i /\ exists s' v, (s :: l) !! (i - k) = Some s' /\ kept s' = Some v).
    { rewrite IH. split.
      - intros (Hi & s' & v & Hl & Hk). split; [done |]. exists s', v.
        replace (i - k) with (S (i - S k)) by lia. done.
      - intros (Hi & s' & v & Hl & Hk). split; [done |]. exists s', v.
        replace (i - k) with (S (i - S k)) in Hl by lia. done. }
    destruct (kept s) as [v |] eqn:Ek.
    + rewrite elem_of_cons, Htl. split.
      * intros [-> | (Hi & Hex)]; [| split; [lia | exact Hex]].
        split; [lia |]. exists s, v. by rewrite Nat.sub_diag.
      * intros (Hi & s' & v' & Hl & Hk).
        destruct (decide (i = k)) as [-> | Hne]; [by left | right].
        split; [lia |]. eauto.
    + rewrite Htl. split.
      * intros (Hi & Hex). split; [lia | exact Hex].
      * intros (Hi & s' & v' & Hl & Hk).
        destruct (decide (i = k)) as [-> | Hne]; [| split; [lia | eauto]].
        rewrite Nat.sub_diag in Hl. simpl in Hl. congruence.
Qed.

(** X5. [valid_indices] maps rows back to snippets: the j-th kept vector is
    the vector assembled from the snippet at the j-th valid index, and it has
    no not-a-number or infinite component; after a loop that went through
    the batch, a position is a valid index exactly when its snippet
    assembles to such a vector. *)
Theorem valid_indices_identify_snippets (features_data : list snippet) :
  Forall2
    (fun i v =>
       exists s, features_data !! i = Some s /\
                 extract_feature_vector (features s) = Ok v /\
                 np_any_isnan v = false /\ np_any_isinf v = false)
    (loop_indices features_data) (loop_vectors features_data) /\
  (loop_completes features_data ->
   forall (i : nat) (s : snippet),
     features_data !! i = Some s ->
     (i ∈ loop_indices features_data <->
      exists v, extract_feature_vector (features s) = Ok v /\
                np_any_isnan v = false /\ np_any_isinf v = false)).
Proof.
  split.
  - destruct (loop_outcome features_data) as [Hl | Hab].
    + rewrite loop_indices_spec, loop_vectors_spec by exact Hl.
      eapply Forall2_impl; [apply (kept_positions_pairs 0) |]. simpl.
      intros i v (s & Hs & _ & Hk). exists s.
      rewrite Nat.sub_0_r in Hs. split; [exact Hs | by apply kept_inv].
    + apply validation_loop_error in Hab as (_ & -> & -> & _). constructor.
  - intros Hl i s Hs. rewrite (loop_indices_spec _ Hl).
    rewrite elem_of_kept_positions, Nat.sub_0_r. split.
    + intros (_ & s' & v & Hs' & Hk). exists v.
      assert (s' = s) as -> by congruence. by apply kept_inv.
    + intros (v & Hv). split; [lia |]. exists s, v. split; [exact Hs | by apply kept_inv].
Qed.

Lemma valid_indices_identify_snippets_witness :
  loop_completes mixed_batch /\
  mixed_batch !! 2 = Some snippet_loud /\
  2 ∈ loop_indices mixed_batch.
Proof.
  assert (Hl : loop_completes mixed_batch) by (unfold loop_completes; vm_compute; eauto).
  split; [exact Hl |]. split; [reflexivity |].
  apply (proj2 (valid_indices_identify_snippets mixed_batch) Hl 2 snippet_loud eq_refl).
  exists (Arr1 [8%float; 6%float]). repeat split; reflexivity.
Defined.

(** ** Parameter selection, continued *)

(** X6. Whatever the sample count, [min_cluster_size] is 2 or 3, and 3
    exactly from nine samples on; [min_samples] stays below it; and it
    exceeds the number of samples only when there are fewer than two. *)
Theorem min_cluster_size_range (n : Z) :
  (min_cluster_size (hdbscan_parameters n) = 2%Z \/
   min_cluster_size (hdbscan_parameters n) = 3%Z) /\
  (min_cluster_size (hdbscan_parameters n) = 3%Z <-> (9 <= n)%Z) /\
  (min_samples (hdbscan_parameters n) < min_cluster_size (hdbscan_parameters n))%Z /\
  ((min_cluster_size (hdbscan_parameters n) <= n)%Z <-> (2 <= n)%Z).
Proof.
  unfold hdbscan_parameters, size_parameters. cbn [min_cluster_size min_samples].
  destruct (Z.leb_spec n 10) as [Hle | Hgt]; cbn [fst snd].
  - assert (Hdiv : (n / 3 <= 3)%Z) by (Z.div_mod_to_equations; lia).
    assert (Hlow : (n < 9 -> n / 3 <= 2)%Z) by (Z.div_mod_to_equations; lia).
    assert (Hhigh : (9 <= n -> n / 3 = 3)%Z) by (Z.div_mod_to_equations; lia).
    destruct (Z_lt_le_dec n 9) as [Hn | Hn].
    + specialize (Hlow Hn). rewrite Z.max_l by lia. lia.
    + rewrite (Hhigh Hn). simpl. lia.
  - destruct (n <? 20)%Z; cbn [fst snd]; lia.
Qed.

(** X7. The neighbor count handed to the embedding lies between 1 and 15
    and never decreases when the sample count grows; it is below the sample
    count exactly from two samples on; and, from two samples on, the final
    clamp changes the table value exactly for 10 to 15 samples. *)
Theorem neighbor_count_profile (n m : Z) :
  (1 <= n_neighbors (umap_parameters n) <= 15)%Z /\
  ((n <= m)%Z -> (n_neighbors (umap_parameters n) <= n_neighbors (umap_parameters m))%Z) /\
  ((n_neighbors (umap_parameters n) < n)%Z <-> (2 <= n)%Z) /\
  ((2 <= n)%Z ->
   (n_neighbors (umap_parameters n) <> fst (umap_table n) <-> (10 <= n <= 15)%Z)).
Proof.
  unfold umap_parameters, umap_table, clamp_neighbors. cbn [n_neighbors].
  destruct (Z.ltb_spec n 5), (Z.ltb_spec n 10), (Z.ltb_spec m 5), (Z.ltb_spec m 10);
    cbn [fst snd]; lia.
Qed.

Lemma neighbor_count_profile_witness :
  ((9 <= 10)%Z /\
   (n_neighbors (umap_parameters 9) <= n_neighbors (umap_parameters 10))%Z) /\
  ((2 <= 12)%Z /\ n_neighbors (umap_parameters 12) <> fst (umap_table 12)).
Proof.
  split; split.
  - lia.
  - apply (proj1 (proj2 (neighbor_count_profile 9 10))). lia.
  - lia.
  - apply (proj2 (proj2 (proj2 (neighbor_count_profile 12 12))) ltac:(lia)). lia.
Defined.

(** ** The stages after the loop, continued *)

(** X8. In every run the collaborators are called after the loop, at most
    once each and in the order scaler, clusterer, reducer; a later one is
    called only if the earlier ones returned; the clusterer and the reducer
    are given the matrix the scaler returned, with the parameters selected
    for the number of kept vectors; and a result is returned only after all
    three calls. *)
Theorem collaborators_called_in_order (C : Collaborators) (features_data : list snippet) :
  let n := Z.of_nat (length (loop_vectors features_data)) in
  exists (k : nat) (Xs : matrix),
    fst (perform_clustering C features_data)
    = loop_log features_data
      ++ take k [Call_scaler (loop_vectors features_data);
                 Call_hdbscan (hdbscan_parameters n) Xs;
                 Call_umap (umap_parameters n) Xs] /\
    (2 <= k -> StandardScaler_fit_transform C (loop_vectors features_data) = inr Xs) /\
    (k = 3 -> exists labels, HDBSCAN_fit_predict C (hdbscan_parameters n) Xs = inr labels) /\
    ((exists r, snd (perform_clustering C features_data) = inr r) -> k = 3).
Proof.
  intros n. subst n.
  destruct (loop_outcome features_data) as [Hl | Hab].
  2:{ exists 0, []. rewrite (perform_clustering_aborted C _ _ Hab). simpl.
      rewrite app_nil_r. repeat split; try lia. intros [r Hr]. discriminate Hr. }
  rewrite (perform_clustering_unfold C _ Hl).
  destruct (loop_vectors features_data) as [| a fvs] eqn:Ev.
  { exists 0, []. rewrite cluster_valid_nil. simpl.
    repeat split; try lia. intros [r Hr]. discriminate Hr. }
  rewrite cluster_valid_stages by discriminate. cbv zeta.
  destruct (np_array_stack (a :: fvs)) as [e | X] eqn:EX.
  { exists 0, []. simpl. repeat split; try lia. intros [r Hr]. discriminate Hr. }
  apply np_array_stack_ok in EX as ->.
  destruct (StandardScaler_fit_transform C (a :: fvs)) as [msg | Xs] eqn:ES.
  { exists 1, []. simpl. repeat split; try lia. intros [r Hr]. discriminate Hr. }
  destruct (HDBSCAN_fit_predict C _ Xs) as [msg | labels] eqn:EH.
  { exists 2, Xs. simpl. repeat split; try lia. intros [r Hr]. discriminate Hr. }
  destruct (centers_loop C Xs labels _ []) as [e | centers] eqn:EC.
  { exists 2, Xs. simpl. repeat split; try lia. intros [r Hr]. discriminate Hr. }
  exists 3, Xs. simpl. repeat split; eauto.
Qed.

Lemma remove_dups_length_le {A : Type} `{EqDecision A} (l : list A) :
  length (remove_dups l) <= length l.
Proof.
  induction l as [| x l IH]; simpl; [lia |].
  destruct (decide_rel elem_of x l); simpl; lia.
Qed.

Lemma remove_dups_nil {A : Type} `{EqDecision A} (l : list A) :
  remove_dups l = [] <-> l = [].
Proof.
  split; [| by intros ->].
  destruct l as [| x l]; [done |]. intros Hnil.
  assert (Hx : x ∈ remove_dups (x :: l)) by (apply elem_of_remove_dups; left).
  rewrite Hnil in Hx. by apply elem_of_nil in Hx.
Qed.

Lemma count_noise_split (labels : list Z) :
  length (filter (fun l => l <> (-1)%Z) labels) + count_noise labels = length labels.
Proof.
  unfold count_noise. induction labels as [| l labels IH]; [reflexivity |].
  rewrite filter_cons. cbn [List.filter].
  destruct (Z.eqb_spec l (-1)%Z) as [-> | Hne].
  - rewrite decide_False by (intros H; by apply H). simpl. lia.
  - rewrite decide_True by exact Hne. simpl. lia.
Qed.

(** X9. In every result the clusters and the noise points fit in the
    labels: [total_clusters + noise_points <= len(cluster_labels)]; there is
    no cluster exactly when every label is noise, and then there is no
    center. *)
Theorem cluster_counts_bounded (C : Collaborators) (features_data : list snippet)
    (log : list event) (r : results) :
  perform_clustering C features_data = (log, inr r) ->
  total_clusters r + noise_points r <= length (cluster_labels r) /\
  (total_clusters r = 0 <-> noise_points r = length (cluster_labels r)) /\
  (total_clusters r = 0 -> cluster_centers r = []).
Proof.
  intros Hrun.
  destruct (perform_clustering_result C features_data log r Hrun)
    as (Xs & _ & _ & _ & HC & _ & _ & Htotal & Hnoise & _).
  pose proof (count_noise_split (cluster_labels r)) as Hsplit.
  pose proof (remove_dups_length_le
                (filter (fun l => l <> (-1)%Z) (cluster_labels r))) as Hle.
  rewrite size_unique_non_noise in Htotal.
  split; [lia |]. split.
  - split.
    + intros Hz. rewrite Hz in Htotal. symmetry in Htotal.
      apply length_zero_iff_nil in Htotal.
      apply (proj1 (remove_dups_nil _)) in Htotal.
      rewrite Htotal in Hsplit. simpl in Hsplit. lia.
    + intros Hn.
      assert (Hf : filter (fun l => l <> (-1)%Z) (cluster_labels r) = [])
        by (apply length_zero_iff_nil; lia).
      rewrite Htotal, Hf. reflexivity.
  - intros Hz. rewrite Hz, <- size_unique_non_noise, <- sorted_length in Htotal.
    symmetry in Htotal. apply length_zero_iff_nil in Htotal.
    rewrite Htotal in HC. simpl in HC. congruence.
Qed.

Lemma cluster_counts_bounded_witness :
  perform_clustering cycling_collaborators mixed_batch = (mixed_log, inr mixed_result) /\
  total_clusters mixed_result + noise_points mixed_result
  <= length (cluster_labels mixed_result).
Proof.
  split; [exact mixed_batch_run |].
  exact (proj1 (cluster_counts_bounded cycling_collaborators mixed_batch
                  mixed_log mixed_result mixed_batch_run)).
Defined.

(** X10. When the normalized matrix has [d] columns, every cluster center of
    a result has [d] components. *)
Theorem cluster_centers_dimension (C : Collaborators) (features_data : list snippet)
    (log : list event) (r : results) (X_scaled : matrix) (d : nat) :
  perform_clustering C features_data = (log, inr r) ->
  StandardScaler_fit_transform C (loop_vectors features_data) = inr X_scaled ->
  Forall (fun row => length row = d) X_scaled ->
  Forall (fun center => length center = d) (cluster_centers r).
Proof.
  intros Hrun Hscale Hcols.
  destruct (perform_clustering_result C features_data log r Hrun)
    as (Xs & _ & HS & _ & HC & _).
  assert (Xs = X_scaled) as -> by congruence.
  assert (Hnn : Forall (fun l => l <> (-1)%Z) (sorted (unique_non_noise (cluster_labels r)))).
  { apply Forall_forall. intros l Hl.
    apply elem_of_sorted, elem_of_unique_non_noise in Hl. tauto. }
  rewrite (centers_loop_ok C _ _ _ [] _ Hnn HC). simpl.
  apply Forall_map, Forall_forall. intros l Hl. simpl.
  apply np_mean_axis0_length; [| by apply rows_with_label_Forall].
  apply rows_with_label_nonempty.
  - apply elem_of_sorted, elem_of_unique_non_noise in Hl. tauto.
  - exact (centers_loop_lengths C _ _ _ [] _ l Hl Hnn HC).
Qed.

Lemma cluster_centers_dimension_witness :
  Forall (fun row => length row = 2)
    [[4%float; 2%float]; [8%float; 6%float]; [4%float; 2%float]; [8%float; 6%float]] /\
  Forall (fun center => length center = 2) (cluster_centers mixed_result).
Proof.
  assert (H : Forall (fun row : list float => length row = 2)
                [[4%float; 2%float]; [8%float; 6%float];
                 [4%float; 2%float]; [8%float; 6%float]])
    by (repeat constructor).
  split; [exact H |].
  exact (cluster_centers_dimension cycling_collaborators mixed_batch mixed_log
           mixed_result _ 2 mixed_batch_run eq_refl H).
Defined.

Lemma np_array_stack_raises (fvs : list ndarray) :
  (exists e, np_array_stack fvs = inl e) <->
  exists a b, a ∈ fvs /\ b ∈ fvs /\ shape a <> shape b.
Proof.
  destruct fvs as [| f rest]; simpl.
  { split; [intros [e He]; discriminate He |].
    intros (a & _ & Ha & _). by apply elem_of_nil in Ha. }
  destruct (forallb (same_shape f) rest) eqn:Eall.
  - split; [intros [e He]; discriminate He |].
    intros (a & b & Ha & Hb & Hne). exfalso. apply Hne.
    rewrite forallb_forall in Eall.
    assert (Hsame : forall c, c ∈ f :: rest -> shape c = shape f).
    { intros c Hc. apply elem_of_cons in Hc as [-> | Hc]; [done |].
      apply list_elem_of_In, Eall in Hc. unfold same_shape in Hc.
      apply bool_decide_eq_true in Hc. by symmetry. }
    by rewrite (Hsame a Ha), (Hsame b Hb).
  - split; [intros _ | eauto].
    assert (Hex : exists b, b ∈ rest /\ shape f <> shape b).
    { clear -Eall. induction rest as [| c rest IH]; [discriminate Eall |].
      simpl in Eall. apply andb_false_iff in Eall as [Hc | Hrest].
      - exists c. split; [left |]. unfold same_shape in Hc.
        by apply bool_decide_eq_false in Hc.
      - destruct (IH Hrest) as (b & Hb & Hne). exists b. split; [by right | exact Hne]. }
    destruct Hex as (b & Hb & Hne). exists f, b.
    split; [left | split; [by right | exact Hne]].
Qed.

(** X11. Kept vectors of different shapes, as left by snippets whose
    features differ in the groups they hold, make the run fail: it ends in
    the [ValueError] of the matrix construction, with no collaborator
    called, exactly when two kept vectors differ in shape. *)
Theorem ragged_batch_rejected (C : Collaborators) (features_data : list snippet) :
  (snd (perform_clustering C features_data) = inl (ValueError "inhomogeneous shape")
   <-> exists a b, a ∈ loop_vectors features_data /\ b ∈ loop_vectors features_data /\
                   shape a <> shape b) /\
  (snd (perform_clustering C features_data) = inl (ValueError "inhomogeneous shape") ->
   fst (perform_clustering C features_data) = loop_log features_data).
Proof.
  rewrite <- np_array_stack_raises.
  destruct (loop_outcome features_data) as [Hl | Hab].
  2:{ rewrite (perform_clustering_aborted C _ _ Hab).
      apply validation_loop_error in Hab as (_ & -> & _). simpl.
      split; [split; [discriminate | intros [e He]; discriminate He] | discriminate]. }
  rewrite (perform_clustering_unfold C _ Hl).
  destruct (loop_vectors features_data) as [| a fvs] eqn:Ev.
  { rewrite cluster_valid_nil. simpl.
    split; [split; [discriminate | intros [e He]; discriminate He] | discriminate]. }
  rewrite cluster_valid_stages by discriminate. cbv zeta.
  destruct (np_array_stack (a :: fvs)) as [e | X] eqn:EX.
  { apply np_array_stack_error in EX as ->. simpl.
    split; [split; eauto | intros _; by rewrite app_nil_r]. }
  destruct (StandardScaler_fit_transform C X) as [msg | Xs].
  { simpl. split; [split; [discriminate | intros [e He]; discriminate He] | discriminate]. }
  destruct (HDBSCAN_fit_predict C _ Xs) as [msg | labels].
  { simpl. split; [split; [discriminate | intros [e He]; discriminate He] | discriminate]. }
  destruct (centers_loop C Xs labels _ []) as [e | centers] eqn:EC.
  { apply centers_loop_error in EC as [msg ->]. simpl.
    split; [split; [discriminate | intros [e He]; discriminate He] | discriminate]. }
  simpl. destruct (UMAP_fit_transform C _ Xs);
    (split; [split; [discriminate | intros [e He]; discriminate He] | discriminate]).
Qed.

Lemma ragged_batch_rejected_witness :
  (shape (Arr1 [4%float; 2%float]) <> shape (Arr1 [])) /\
  perform_clustering plain_collaborators [snippet_ok; snippet_nan; snippet_empty]
  = ([Warning_invalid "c"], inl (ValueError "inhomogeneous shape")).
Proof.
  split; [discriminate |].
  pose proof (ragged_batch_rejected plain_collaborators
                [snippet_ok; snippet_nan; snippet_empty]) as [Hiff Hlog].
  assert (Hraise : snd (perform_clustering plain_collaborators
                          [snippet_ok; snippet_nan; snippet_empty])
                   = inl (ValueError "inhomogeneous shape")).
  { apply (proj2 Hiff). exists (Arr1 [4%float; 2%float]), (Arr1 []).
    split; [| split; [| discriminate]]; vm_compute; repeat constructor. }
  specialize (Hlog Hraise).
  destruct (perform_clustering plain_collaborators _) as [log out].
  simpl in Hraise, Hlog. by rewrite Hraise, Hlog.
Defined.

(** ** [main] *)

(** X12. The process exits with status 0, 1 or 2: with 2 exactly when
    argparse turns the command line away; with 0 exactly when argparse
    printed its help, or the batch was read, is not empty, the pipeline
    returned a result, and the result went to standard output or was written
    to the output file. An empty batch is turned away by [main] itself, with
    status 1, before the pipeline runs. *)
Theorem main_exit_status (C : Collaborators) (F : Files) (args : parsed) :
  (snd (main C F args) = 0%Z \/ snd (main C F args) = 1%Z \/ snd (main C F args) = 2%Z) /\
  (snd (main C F args) = 2%Z <-> args = Usage_error) /\
  (snd (main C F args) = 0%Z <->
   args = Help \/
   exists features_file output features_data log r,
     args = Parsed features_file output /\
     load_features F features_file = inr features_data /\
     features_data <> [] /\
     perform_clustering C features_data = (log, inr r) /\
     (output = "stdout" \/ dump_results F output r = None)) /\
  (forall features_file output,
     args = Parsed features_file output ->
     load_features F features_file = inr [] ->
     main C F args = ([Stderr_no_data], 1%Z)).
Proof.
  destruct args as [features_file output | |]; cycle 1.
  { simpl. split; [by left |]. split; [done |]. split; [| done].
    split; [by left | done]. }
  { simpl. split; [right; by right |]. split; [done |]. split; [| done].
    split; [discriminate |]. intros [? | (? & ? & ? & ? & ? & ? & _)]; discriminate. }
  assert (Hparsed : forall P : Prop,
            (Parsed features_file output = Help \/ P) <-> P).
  { intros P. split; [intros [? | HP]; [discriminate | exact HP] | by right]. }
  rewrite Hparsed. unfold main.
  destruct (load_features F features_file) as [msg | data] eqn:EL.
  { simpl. split; [right; by left |]. split; [done |]. split.
    - split; [discriminate |].
      intros (f & o & d & l & r & [= <- <-] & Hd & _). congruence.
    - intros f o [= <- <-] Hl. congruence. }
  destruct data as [| s data].
  { simpl. split; [right; by left |]. split; [done |]. split.
    - split; [discriminate |].
      intros (f & o & d & l & r & [= <- <-] & Hd & Hne & _). congruence.
    - intros f o _ _. reflexivity. }
  destruct (perform_clustering C (s :: data)) as [log outcome] eqn:ER.
  assert (Hempty : forall f o,
            Parsed features_file output = Parsed f o -> load_features F f = inr [] -> False).
  { intros f o [= <- <-] Hl. congruence. }
  destruct outcome as [e | r].
  { simpl. split; [right; by left |]. split; [done |]. split.
    - split; [discriminate |].
      intros (f & o & d & l & r & [= <- <-] & Hd & _ & Hrun & _). congruence.
    - intros f o Hf Hl. destruct (Hempty f o Hf Hl). }
  destruct (String.eqb_spec output "stdout") as [-> | Hout].
  { simpl. split; [by left |]. split; [done |]. split.
    - split; [| done]. intros _. exists features_file, "stdout", (s :: data), log, r.
      split; [done |]. split; [done |]. split; [done |]. split; [done | by left].
    - intros f o Hf Hl. destruct (Hempty f o Hf Hl). }
  destruct (dump_results F output r) as [msg |] eqn:ED.
  - simpl. split; [right; by left |]. split; [done |]. split.
    + split; [discriminate |].
      intros (f & o & d & l & r' & [= <- <-] & Hd & _ & Hrun & [-> | Hdump]); [done |].
      assert (r' = r) as -> by congruence. congruence.
    + intros f o Hf Hl. destruct (Hempty f o Hf Hl).
  - simpl. split; [by left |]. split; [done |]. split.
    + split; [| done]. intros _. exists features_file, output, (s :: data), log, r.
      split; [done |]. split; [done |]. split; [done |]. split; [done | by right].
    + intros f o Hf Hl. destruct (Hempty f o Hf Hl).
Qed.

Lemma main_exit_status_witness :
  load_features mixed_files "in.json" = inr mixed_batch /\
  snd (main cycling_collaborators mixed_files (Parsed "in.json" "stdout")) = 0%Z /\
  main cycling_collaborators mixed_files (Parsed "empty.json" "out.json")
  = ([Stderr_no_data], 1%Z).
Proof.
  split; [reflexivity |]. split.
  - apply (proj2 (proj1 (proj2 (proj2 (main_exit_status cycling_collaborators mixed_files
                                         (Parsed "in.json" "stdout")))))).
    right. exists "in.json", "stdout", mixed_batch, mixed_log, mixed_result.
    split; [reflexivity |]. split; [reflexivity |]. split; [discriminate |].
    split; [exact mixed_batch_run | by left].
  - exact (proj2 (proj2 (proj2 (main_exit_status cycling_collaborators mixed_files
                                  (Parsed "empty.json" "out.json"))))
             "empty.json" "out.json" eq_refl eq_refl).
Defined.

Lemma stdout_loop_log (l : list snippet) :
  stdout (map Pipeline (loop_log l)) = map Pipeline (loop_log l).
Proof.
  pose proof (loop_log_warnings l) as Hw. unfold stdout.
  induction (loop_log l) as [| w ws IH]; [reflexivity |].
  cbn [map List.filter].
  rewrite IH by (intros w' Hw'; apply Hw; by right).
  destruct (Hw w ltac:(left)) as [[id ->] | (id & e & ->)]; reflexivity.
Qed.

(** X13. When [main] writes to standard output and exits with status 0,
    standard output holds the warnings of the skipped snippets, in batch
    order, and then the one line of JSON: it is the JSON document alone
    exactly when no snippet was skipped. *)
Theorem main_stdout_lines (C : Collaborators) (F : Files) (features_file : string)
    (lines : list output_line) :
  main C F (Parsed features_file "stdout") = (lines, 0%Z) ->
  exists features_data r,
    load_features F features_file = inr features_data /\
    snd (perform_clustering C features_data) = inr r /\
    stdout lines = map Pipeline (loop_log features_data) ++ [Stdout_json r] /\
    (stdout lines = [Stdout_json r] <-> loop_log features_data = []).
Proof.
  unfold main.
  destruct (load_features F features_file) as [msg | data] eqn:EL; [discriminate |].
  destruct data as [| s data]; [discriminate |].
  destruct (perform_clustering C (s :: data)) as [log outcome] eqn:ER.
  destruct outcome as [e | r]; [discriminate |].
  simpl. intros [= <-].
  destruct (perform_clustering_result C (s :: data) log r ER) as (Xs & _ & _ & _ & _ & _ & _ & _ & _ & ->).
  exists (s :: data), r.
  assert (Hout : stdout (map Pipeline (loop_log (s :: data)
                   ++ [Call_scaler (loop_vectors (s :: data));
                       Call_hdbscan (hdbscan_parameters
                         (Z.of_nat (length (loop_vectors (s :: data))))) Xs;
                       Call_umap (umap_parameters
                         (Z.of_nat (length (loop_vectors (s :: data))))) Xs])
                   ++ [Stdout_json r])
                 = map Pipeline (loop_log (s :: data)) ++ [Stdout_json r]).
  { rewrite map_app. unfold stdout. rewrite !List.filter_app.
    fold (stdout (map Pipeline (loop_log (s :: data)))).
    rewrite stdout_loop_log. cbn [map List.filter on_stdout]. by rewrite app_nil_r. }
  split; [reflexivity |]. split; [by rewrite ER |]. split; [exact Hout |].
  rewrite Hout. split.
  - intros Heq. destruct (loop_log (s :: data)) as [| w ws]; [reflexivity |].
    simpl in Heq. injection Heq as _ Heq. by destruct ws.
  - intros ->. reflexivity.
Qed.

Lemma main_stdout_lines_witness :
  stdout (fst (main cycling_collaborators mixed_files (Parsed "in.json" "stdout")))
  = [Pipeline (Warning_failed "b" (KeyError "mfcc_std"));
     Pipeline (Warning_invalid "c");
     Stdout_json mixed_result].
Proof.
  assert (Hmain : main cycling_collaborators mixed_files (Parsed "in.json" "stdout")
                  = (map Pipeline mixed_log ++ [Stdout_json mixed_result], 0%Z)).
  { unfold main. simpl load_features. cbv iota.
    change (perform_clustering cycling_collaborators (snippet_ok :: _))
      with (perform_clustering cycling_collaborators mixed_batch).
    rewrite mixed_batch_run. reflexivity. }
  destruct (main_stdout_lines cycling_collaborators mixed_files "in.json" _ Hmain)
    as (data & r & Hload & Hrun & Hout & _).
  injection Hload as <-. rewrite mixed_batch_run in Hrun. injection Hrun as <-.
  rewrite Hmain. exact Hout.
Defined.

(** ** Dictionaries of the feature extractor *)

Lemma features_dictionary_well_typed (st : audio_stats) :
  well_typed (features_dictionary st).
Proof.
  split; [right; eexists _, _; split; vm_compute; reflexivity |].
  split; [right; eexists _, _; split; vm_compute; reflexivity |].
  unfold scalars_ok, scalar_features.
  repeat constructor; intros v Hv; vm_compute in Hv; injection Hv as <-; eauto.
Qed.

Lemma to_doubles_floats (xs : list float) : to_doubles (map PyFloat xs) = Ok xs.
Proof. induction xs as [| x xs IH]; simpl; [reflexivity |]. by rewrite IH. Qed.

Lemma features_dictionary_layout (st : audio_stats) :
  layout (features_dictionary st) = map PyFloat (stats_vector st).
Proof.
  assert (Hm : pair_values (features_dictionary st) "mfcc_mean" "mfcc_std"
               = map PyFloat (mfcc_mean st) ++ map PyFloat (mfcc_std st))
    by (vm_compute; reflexivity).
  assert (Hc : pair_values (features_dictionary st) "chroma_mean" "chroma_std"
               = map PyFloat (chroma_mean st) ++ map PyFloat (chroma_std st))
    by (vm_compute; reflexivity).
  assert (Hsp : scalar_values (features_dictionary st) spectral_features
                = map PyFloat
                    [spectral_centroid_mean st; spectral_centroid_std st;
                     spectral_bandwidth_mean st; spectral_bandwidth_std st;
                     spectral_rolloff_mean st; spectral_rolloff_std st])
    by (vm_compute; reflexivity).
  assert (Hra : scalar_values (features_dictionary st) rate_features
                = map PyFloat [zero_crossing_rate_mean st; zero_crossing_rate_std st])
    by (vm_compute; reflexivity).
  assert (Hen : scalar_values (features_dictionary st) energy_features
                = map PyFloat [rms_mean st; rms_std st]) by (vm_compute; reflexivity).
  assert (Hme : scalar_values (features_dictionary st) metadata_features
                = map PyFloat [duration st; sample_rate st; audio_length st])
    by (vm_compute; reflexivity).
  unfold layout, stats_vector. rewrite Hm, Hc, Hsp, Hra, Hen, Hme.
  by rewrite !map_app, <- !app_assoc.
Qed.

Lemma extract_features_dictionary (st : audio_stats) :
  extract_feature_vector (features_dictionary st) = Ok (Arr1 (stats_vector st)).
Proof.
  rewrite (extract_well_typed _ (features_dictionary_well_typed st)).
  by rewrite features_dictionary_layout, to_doubles_floats.
Qed.

(** X14. The dictionary that [extract_audio_features] builds always
    assembles: the vector is the cepstral means and deviations, the ten
    scalar statistics, the chroma means and deviations and the three
    metadata values, in that order, of length [len(mfcc_mean) +
    len(mfcc_std) + len(chroma_mean) + len(chroma_std) + 13]; in the loop
    such a snippet is kept, or skipped as invalid, never reported as a failed
    extraction. *)
Theorem extractor_dictionary_assembles (st : audio_stats) (id : string) :
  extract_feature_vector (features_dictionary st) = Ok (Arr1 (stats_vector st)) /\
  length (stats_vector st)
  = length (mfcc_mean st) + length (mfcc_std st)
    + length (chroma_mean st) + length (chroma_std st) + 13 /\
  (validation_loop [{| snippet_id := Some id; features := features_dictionary st |}]
   = ([], Ok ([Arr1 (stats_vector st)], [0])) \/
   validation_loop [{| snippet_id := Some id; features := features_dictionary st |}]
   = ([Warning_invalid id], Ok ([], []))).
Proof.
  assert (Hx := extract_features_dictionary st).
  split; [exact Hx |]. split.
  - unfold stats_vector. rewrite !length_app. simpl. lia.
  - rewrite validation_loop_spec by (constructor; [intros _; by eexists | constructor]).
    cbn [omap list_omap kept_positions]. unfold kept, warned.
    cbn [features snippet_id]. rewrite Hx.
    destruct (negb (np_any_isnan _) && negb (np_any_isinf _)); [by left | by right].
Qed.

Lemma from_extractor_kept (s : snippet) (v : ndarray) :
  from_extractor s -> kept s = Some v -> exists xs, v = Arr1 xs /\ length xs = 63.
Proof.
  intros (st & Hf & H1 & H2 & H3 & H4) Hk.
  apply kept_inv in Hk as (Hx & _). rewrite Hf in Hx.
  rewrite extract_features_dictionary in Hx.
  injection Hx as <-. eexists. split; [reflexivity |].
  unfold stats_vector. rewrite !length_app, H1, H2, H3, H4. reflexivity.
Qed.

Lemma from_extractor_warned (s : snippet) (w : event) :
  from_extractor s -> warned s = Some w -> exists id, w = Warning_invalid id.
Proof.
  intros (st & Hf & _) Hw. unfold warned in Hw. rewrite Hf in Hw.
  rewrite extract_features_dictionary in Hw.
  destruct (snippet_id s) as [id |]; [| discriminate].
  destruct (negb (np_any_isnan _) && negb (np_any_isinf _)); [discriminate |].
  injection Hw as <-. eauto.
Qed.

(** What the loop keeps and what it prints come from snippets of the
    batch. *)
Lemma loop_vectors_from_batch (l : list snippet) (v : ndarray) :
  v ∈ loop_vectors l -> exists s, s ∈ l /\ kept s = Some v.
Proof.
  destruct (loop_outcome l) as [Hl | Hab].
  - rewrite (loop_vectors_spec l Hl). apply list_elem_of_omap.
  - apply validation_loop_error in Hab as (_ & -> & _). intros H. by apply elem_of_nil in H.
Qed.

Lemma loop_log_from_batch (l : list snippet) (w : event) :
  w ∈ loop_log l -> exists s, s ∈ l /\ warned s = Some w.
Proof.
  destruct (loop_outcome l) as [Hl | Hab].
  - rewrite (loop_log_spec l Hl). apply list_elem_of_omap.
  - apply validation_loop_error in Hab as (_ & _ & _ & pre & s & post & -> & ->).
    intros (s' & Hs' & Hw)%list_elem_of_omap. exists s'.
    split; [apply elem_of_app; by left | exact Hw].
Qed.

(** X15. In a batch of extractor dictionaries, with 13 cepstral
    coefficients and 12 chroma bins each, every kept vector has 63
    components, the matrix construction does not fail, and a snippet is
    skipped only as invalid (a not-a-number or infinite statistic), never for
    a failed extraction. *)
Theorem extractor_batch_is_rectangular (features_data : list snippet) :
  Forall from_extractor features_data ->
  Forall (fun v => exists xs, v = Arr1 xs /\ length xs = 63) (loop_vectors features_data) /\
  np_array_stack (loop_vectors features_data) = Ok (loop_vectors features_data) /\
  Forall (fun w => exists id, w = Warning_invalid id) (loop_log features_data).
Proof.
  intros Hall. rewrite Forall_forall in Hall.
  assert (Hv : Forall (fun v => exists xs, v = Arr1 xs /\ length xs = 63)
                 (loop_vectors features_data)).
  { apply Forall_forall. intros v (s & Hs & Hk)%loop_vectors_from_batch.
    exact (from_extractor_kept s v (Hall s Hs) Hk). }
  split; [exact Hv |]. split.
  - destruct (loop_vectors features_data) as [| a rest]; [reflexivity |].
    simpl. apply Forall_cons in Hv as [(xs & -> & Hxs) Hrest].
    assert (Hsame : forallb (same_shape (Arr1 xs)) rest = true).
    { apply forallb_forall. intros b Hb.
      rewrite Forall_forall in Hrest.
      apply list_elem_of_In, Hrest in Hb as (ys & -> & Hys).
      unfold same_shape. apply bool_decide_eq_true. simpl. congruence. }
    by rewrite Hsame.
  - apply Forall_forall. intros w (s & Hs & Hw)%loop_log_from_batch.
    exact (from_extractor_warned s w (Hall s Hs) Hw).
Qed.

Lemma extracted_batch_from_extractor : Forall from_extractor extracted_batch.
Proof.
  repeat constructor; eexists; repeat split; reflexivity.
Qed.

Lemma extractor_batch_is_rectangular_witness :
  Forall from_extractor extracted_batch /\
  loop_indices extracted_batch = [0; 2] /\
  loop_log extracted_batch = [Warning_invalid "s2"] /\
  np_array_stack (loop_vectors extracted_batch) = Ok (loop_vectors extracted_batch).
Proof.
  split; [exact extracted_batch_from_extractor |].
  split; [vm_compute; reflexivity |].
  split; [vm_compute; reflexivity |].
  exact (proj1 (proj2 (extractor_batch_is_rectangular extracted_batch
                         extracted_batch_from_extractor))).
Defined.
